(** * data-visualiser: the upload controller and the suggestion renderer

    A shallow embedding of [frontend/src/app/page.tsx] ([Home] and its
    [handleFileUpload]) and of the [ChartDisplay] component, together with
    the part of the JavaScript run time both rely on.

    TypeScript interfaces are erased at run time: what [response.json()]
    resolves to is stored and rendered unchecked.  The stored result and
    the suggestions are therefore modelled as untyped JSON values, and every
    property read or method call may throw. *)

From Stdlib Require Import ZArith Ascii String.
From stdpp Require Import gmap strings list fin_maps pretty.

Set Warnings "-register-all".
Open Scope string_scope.

(** ** JavaScript values *)

Module JS.

(** A value as [JSON.parse] builds it, plus [undefined] (the result of
    reading a missing property).  [JNum n] is the number that the integer
    literal [n] denotes (the nearest double); fractional numbers are outside
    the model.  A string is held as the UTF-8 encoding of its text.  An
    object is the list of its own properties in insertion order. *)
Inductive JValue : Type :=
| JUndefined
| JNull
| JBool (b : bool)
| JNum (n : Z)
| JStr (s : string)
| JArr (items : list JValue)
| JObj (fields : list (string * JValue)).

(** What a [throw] carries: an [Error] instance (only its [message] is ever
    read) or any other value. *)
Inductive Thrown : Type :=
| ErrorObj (message : string)
| NonError (v : JValue).

(** Abrupt or normal completion of an expression. *)
Inductive Res (A : Type) : Type :=
| OK (a : A)
| Throw (t : Thrown).
Arguments OK {A} a.
Arguments Throw {A} t.

Definition bind {A B} (r : Res A) (k : A -> Res B) : Res B :=
  match r with
  | OK a => k a
  | Throw t => Throw t
  end.

Notation "'let!' x ':=' r 'in' k" := (bind r (fun x => k))
  (at level 10, x name, r at level 100, k at level 200).

(** The message of the [TypeError] an engine raises; the wording is V8's and
    no theorem depends on it. *)
Definition nullishName (v : JValue) : string :=
  match v with JNull => "null" | _ => "undefined" end.

Definition cannotRead (v : JValue) (k : string) : Thrown :=
  ErrorObj ("Cannot read properties of " ++ nullishName v ++ " (reading '" ++ k ++ "')").

Definition notAFunction (k : string) : Thrown :=
  ErrorObj (k ++ " is not a function").

Fixpoint lookupField (k : string) (fields : list (string * JValue)) : JValue :=
  match fields with
  | [] => JUndefined
  | (k', v) :: rest => if String.eqb k k' then v else lookupField k rest
  end.

(** The [length] of a string: its number of UTF-16 code units, read off
    the UTF-8 bytes (one unit for an ASCII byte and for the lead byte of a
    two- or three-byte sequence, two for the lead byte of a four-byte
    sequence, none for a continuation byte). *)
Fixpoint utf16Length (s : string) : nat :=
  match s with
  | EmptyString => 0
  | String c rest =>
      let n := nat_of_ascii c in
      (if (n <? 128)%nat then 1
       else if (n <? 192)%nat then 0
       else if (n <? 240)%nat then 1
       else 2) + utf16Length rest
  end.

(** [v.k] for the property names the source reads.  None of them is an array
    index or inherited from a prototype, so a missing own property reads as
    [undefined]; [length] is the only one arrays and strings own. *)
Definition get (v : JValue) (k : string) : Res JValue :=
  match v with
  | JUndefined | JNull => Throw (cannotRead v k)
  | JObj fields => OK (lookupField k fields)
  | JArr items => OK (if String.eqb k "length" then JNum (Z.of_nat (length items)) else JUndefined)
  | JStr s => OK (if String.eqb k "length" then JNum (Z.of_nat (utf16Length s)) else JUndefined)
  | JBool _ | JNum _ => OK JUndefined
  end.

(** ToBoolean. *)
Definition truthy (v : JValue) : bool :=
  match v with
  | JUndefined | JNull => false
  | JBool b => b
  | JNum n => negb (Z.eqb n 0)
  | JStr s => negb (String.eqb s "")
  | JArr _ | JObj _ => true
  end.

(** [a || b] *)
Definition or_else (a b : JValue) : JValue := if truthy a then a else b.

Definition hasOwn (k : string) (fields : list (string * JValue)) : bool :=
  existsb (fun kv => String.eqb k (fst kv)) fields.

(** The value of the double nearest to the positive integer [a], ties to
    the even significand. *)
Definition toDouble (a : Z) : Z :=
  let bits := (Z.log2 a + 1)%Z in
  if (bits <=? 53)%Z then a
  else
    let sh := (bits - 53)%Z in
    let q := Z.shiftr a sh in
    let r := (a - Z.shiftl q sh)%Z in
    let half := Z.shiftl 1 (sh - 1) in
    let q' := if (half <? r)%Z || ((r =? half)%Z && Z.odd q) then (q + 1)%Z else q in
    Z.shiftl q' sh.

(** The integers that round to the double [x], for [x] above 2^53: from
    [fst] to [snd], both included. *)
Definition roundsTo (x : Z) : Z * Z :=
  let e := (Z.log2 x + 1 - 53)%Z in
  let m := Z.shiftr x e in
  let up := Z.shiftl 1 (e - 1) in
  let down := if (m =? 2 ^ 52)%Z then Z.shiftl 1 (e - 2) else up in
  if Z.even m then ((x - down)%Z, (x + up)%Z)
  else ((x - down + 1)%Z, (x + up - 1)%Z).

(** The multiple of [10^p] between [lo] and [hi] nearest to [x], the even
    multiple on a tie. *)
Definition nearestMultiple (x lo hi : Z) (p : nat) : option Z :=
  let t := (10 ^ Z.of_nat p)%Z in
  let f := (x / t * t)%Z in
  let c := (f + t)%Z in
  if (f =? x)%Z then Some x
  else
    match (lo <=? f)%Z, (c <=? hi)%Z with
    | true, true =>
        if (x - f <? c - x)%Z then Some f
        else if (c - x <? x - f)%Z then Some c
        else if Z.even (f / t) then Some f else Some c
    | true, false => Some f
    | false, true => Some c
    | false, false => None
    end.

(** The shortest decimal that rounds to [x]: the value and its number of
    trailing zeros, trying [p] zeros and then fewer. *)
Fixpoint shortest (x lo hi : Z) (p : nat) : Z * nat :=
  match nearestMultiple x lo hi p with
  | Some v => (v, p)
  | None =>
      match p with
      | O => (x, O)
      | S p' => shortest x lo hi p'
      end
  end.

Fixpoint zeros (p : nat) : string :=
  match p with
  | O => ""
  | S p' => String "0" (zeros p')
  end.

(** Number::toString for the number an integer literal denotes: up to
    2^53 the digits of the integer; above, the shortest decimal that rounds
    to the double, written out when it has at most 21 digits and in exponent
    notation otherwise. *)
Definition numberToString (n : Z) : string :=
  let sign := if (n <? 0)%Z then "-" else "" in
  let a := Z.abs n in
  if (a <=? 2 ^ 53)%Z then pretty n
  else
    let x := toDouble a in
    if (2 ^ 1024 <=? x)%Z then sign ++ "Infinity"
    else
      let (lo, hi) := roundsTo x in
      let (v, p) := shortest x lo hi (String.length (pretty x)) in
      let digits := pretty (v / 10 ^ Z.of_nat p)%Z in
      let n10 := (String.length digits + p)%nat in
      if (n10 <=? 21)%nat then sign ++ digits ++ zeros p
      else
        sign ++
        match digits with
        | String d "" => String d ""
        | String d rest => String d ("." ++ rest)
        | "" => ""
        end ++ "e+" ++ pretty (n10 - 1)%nat.

(** ToString.  An array joins the strings of its elements with a comma,
    [null] and [undefined] elements giving the empty string; a plain object
    gives ["[object Object]"], unless an own [toString] property (never
    callable in JSON) shadows the inherited method. *)
Fixpoint ToString (v : JValue) : Res string :=
  match v with
  | JUndefined => OK "undefined"
  | JNull => OK "null"
  | JBool b => OK (if b then "true" else "false")
  | JNum n => OK (numberToString n)
  | JStr s => OK s
  | JArr items =>
      (fix join (l : list JValue) : Res string :=
         match l with
         | [] => OK ""
         | x :: rest =>
             let! a := match x with JUndefined | JNull => OK "" | _ => ToString x end in
             match rest with
             | [] => OK a
             | _ :: _ => let! b := join rest in OK (a ++ "," ++ b)
             end
         end) items
  | JObj fields =>
      if hasOwn "toString" fields
      then Throw (ErrorObj "Cannot convert object to primitive value")
      else OK "[object Object]"
  end.

(** [new Error(v)]: the message is [ToString v]. *)
Definition newError (v : JValue) : Res Thrown :=
  let! m := ToString v in OK (ErrorObj m).

(** ASCII case mapping.  [toLowerCase] maps the letters A-Z and leaves
    other bytes as they are: the lowercased tag is only compared with five
    ASCII words, and no non-ASCII character lowercases to a letter occurring
    in them.  [toUpperCase] maps the letters a-z; it is applied to ASCII
    text only. *)
Definition lowerChar (c : ascii) : ascii :=
  let n := nat_of_ascii c in
  if (65 <=? n)%nat && (n <=? 90)%nat then ascii_of_nat (n + 32) else c.

Definition upperChar (c : ascii) : ascii :=
  let n := nat_of_ascii c in
  if (97 <=? n)%nat && (n <=? 122)%nat then ascii_of_nat (n - 32) else c.

Fixpoint toLowerCase (s : string) : string :=
  match s with
  | EmptyString => EmptyString
  | String c rest => String (lowerChar c) (toLowerCase rest)
  end.

Fixpoint toUpperCase (s : string) : string :=
  match s with
  | EmptyString => EmptyString
  | String c rest => String (upperChar c) (toUpperCase rest)
  end.

(** [s.charAt(0)] and [s.slice(1)], for an [s] that is empty or starts with
    an ASCII character (one byte, one code unit). *)
Definition charAt0 (s : string) : string :=
  match s with
  | EmptyString => EmptyString
  | String c _ => String c EmptyString
  end.

Definition slice1 (s : string) : string :=
  match s with
  | EmptyString => EmptyString
  | String _ rest => rest
  end.

Definition asciiFirst (s : string) : bool :=
  match s with
  | EmptyString => true
  | String c _ => (nat_of_ascii c <? 128)%nat
  end.

(** The receiver of a string method call [v.m()]: a string, or the call
    throws. *)
Definition stringReceiver (v : JValue) (m : string) : Res string :=
  match v with
  | JStr s => OK s
  | JUndefined | JNull => Throw (cannotRead v m)
  | _ => Throw (notAFunction m)
  end.

(** The receiver of [v.map(f)]: an array, or the call throws. *)
Definition arrayReceiver (v : JValue) : Res (list JValue) :=
  match v with
  | JArr items => OK items
  | JUndefined | JNull => Throw (cannotRead v "map")
  | _ => Throw (notAFunction "map")
  end.

(** Whether [v.toLocaleString()] throws on a value that is neither [null]
    nor [undefined]: an own [toLocaleString] or [toString] property shadows
    the inherited method with something that cannot be called; an array asks
    each of its non-null elements. *)
Fixpoint localeThrows (v : JValue) : bool :=
  match v with
  | JObj fields => hasOwn "toLocaleString" fields || hasOwn "toString" fields
  | JArr items =>
      (fix any (l : list JValue) : bool :=
         match l with
         | [] => false
         | x :: rest =>
             match x with JUndefined | JNull => false | _ => localeThrows x end
             || any rest
         end) items
  | _ => false
  end.

End JS.
Export JS.

(** ** The data contract *)

(** [interface ChartSuggestion], declared alike in both source files.  An
    optional field that is absent is a missing property. *)
Record ChartSuggestion : Type := {
  type : string;
  title : string;
  x_axis : option string;
  y_axis : option string;
  explanation : string;
  data : list JValue
}.

Definition optional (k : string) (o : option string) : list (string * JValue) :=
  match o with
  | Some s => [(k, JStr s)]
  | None => []
  end.

(** The run-time object of a well-typed suggestion. *)
Definition toJS (s : ChartSuggestion) : JValue :=
  JObj ([("type", JStr (type s)); ("title", JStr (title s))]
          ++ optional "x_axis" (x_axis s) ++ optional "y_axis" (y_axis s)
          ++ [("explanation", JStr (explanation s)); ("data", JArr (data s))]).

(** What reading an optional field gives. *)
Definition axisValue (o : option string) : JValue :=
  match o with
  | Some s => JStr s
  | None => JUndefined
  end.

(** ** React elements *)

(** The value of a JSX attribute. *)
Inductive PropV : Type :=
| PV (v : JValue)
  (** a string, an integral number, a boolean, an array or object literal,
      or the value of an expression *)
| PDec (literal : string)
  (** a fractional numeric literal, kept as written *)
| PFn (f : JValue -> string -> Res string)
  (** an arrow function *)
| PRef (name : string)
  (** a function of the enclosing component, by name *).

(** What a component returns: an element with its attributes and children,
    literal text, the value of a [{expression}] child (React shows strings
    and numbers and nothing for [null], [undefined], [false] and [""]), the
    text of a [toLocaleString()] call, which depends on the locale, or the
    text of [s.charAt(0).toUpperCase() + s.slice(1)] for an [s] that starts
    with a character outside ASCII, whose upper case is given by the Unicode
    tables. *)
Inductive Node : Type :=
| Elem (tag : string) (props : list (string * PropV)) (children : list Node)
| Text (s : string)
| Expr (v : JValue)
| LocaleText (v : JValue)
| Capitalised (s : string).

Definition cls (c : string) : string * PropV := ("className", PV (JStr c)).
Definition str (k v : string) : string * PropV := (k, PV (JStr v)).
Definition num (k : string) (n : Z) : string * PropV := (k, PV (JNum n)).
Definition val (k : string) (v : JValue) : string * PropV := (k, PV v).
Definition fontSize12 : JValue := JObj [("fontSize", JNum 12)].

(** ** ChartDisplay *)

Module ChartDisplay.

Definition COLORS : list string :=
  ["#0088FE"; "#00C49F"; "#FFBB28"; "#FF8042"; "#8884D8"; "#82CA9D"].

(** [COLORS[index % COLORS.length]]; reading past the end of an array gives
    [undefined]. *)
Definition colorAt (index : nat) : JValue :=
  match COLORS !! (index mod length COLORS) with
  | Some c => JStr c
  | None => JUndefined
  end.

(** The [label] function of the pie,
    [({ name, percent }) => `${name} ${(percent * 100).toFixed(0)}%`].
    [pct] stands for the text of [(percent * 100).toFixed(0)], a
    floating-point computation on the fraction the chart library passes. *)
Definition pieLabel (arg : JValue) (pct : string) : Res string :=
  let! name := get arg "name" in
  let! n := ToString name in
  OK (n ++ " " ++ pct ++ "%").

(** [<Cell key={`cell-${index}`} fill={COLORS[index % COLORS.length]} />],
    the body of the callback of [suggestion.data.map]; there [index] is the
    callback's own second parameter, which shadows the component's. *)
Definition cell (index : nat) (entry : JValue) : Node :=
  Elem "Cell" [str "key" ("cell-" ++ pretty index); val "fill" (colorAt index)] [].

Definition grid : Node := Elem "CartesianGrid" [str "strokeDasharray" "3 3"] [].
Definition yTicks : Node := Elem "YAxis" [val "tick" fontSize12] [].
Definition tooltip : Node := Elem "Tooltip" [] [].
Definition legend : Node := Elem "Legend" [] [].

(** [<ResponsiveContainer {...commonProps}>] *)
Definition container (data : JValue) (child : Node) : Node :=
  Elem "ResponsiveContainer" [str "width" "100%"; num "height" 300; val "data" data] [child].

(** The axis fields are read where the arms of the [switch] use them; once
    [suggestion.data] has been read these reads cannot throw, so they are
    written once, ahead of the arms. *)
Definition renderChart (suggestion : JValue) (index : nat) : Res Node :=
  let! data := get suggestion "data" in
  let! type := get suggestion "type" in
  let! s := stringReceiver type "toLowerCase" in
  let! x_axis := get suggestion "x_axis" in
  let! y_axis := get suggestion "y_axis" in
  let tag := toLowerCase s in
  if String.eqb tag "bar" then
    OK (container data
          (Elem "BarChart" [val "data" data]
             [ grid;
               Elem "XAxis" [val "dataKey" x_axis; val "tick" fontSize12; num "interval" 0;
                             num "angle" (-45); str "textAnchor" "end"; num "height" 80] [];
               yTicks; tooltip; legend;
               Elem "Bar" [val "dataKey" y_axis; val "fill" (colorAt index);
                           val "radius" (JArr [JNum 4; JNum 4; JNum 0; JNum 0])] [] ]))
  else if String.eqb tag "line" then
    OK (container data
          (Elem "LineChart" [val "data" data]
             [ grid;
               Elem "XAxis" [val "dataKey" x_axis; val "tick" fontSize12] [];
               yTicks; tooltip; legend;
               Elem "Line" [str "type" "monotone"; val "dataKey" y_axis;
                            val "stroke" (colorAt index); num "strokeWidth" 3;
                            val "dot" (JObj [("r", JNum 4)])] [] ]))
  else if String.eqb tag "pie" then
    let! entries := arrayReceiver data in
    OK (container data
          (Elem "PieChart" []
             [ Elem "Pie" [val "data" data; str "cx" "50%"; str "cy" "50%";
                           val "labelLine" (JBool false); ("label", PFn pieLabel);
                           num "outerRadius" 80; str "fill" "#8884d8"; str "dataKey" "value"]
                 (imap cell entries);
               tooltip ]))
  else if String.eqb tag "scatter" then
    OK (container data
          (Elem "ScatterChart" [val "data" data]
             [ grid;
               Elem "XAxis" [val "dataKey" x_axis; val "tick" fontSize12] [];
               Elem "YAxis" [val "dataKey" y_axis; val "tick" fontSize12] [];
               tooltip; legend;
               Elem "Scatter" [val "dataKey" y_axis; val "fill" (colorAt index)] [] ]))
  else if String.eqb tag "area" then
    OK (container data
          (Elem "AreaChart" [val "data" data]
             [ grid;
               Elem "XAxis" [val "dataKey" x_axis; val "tick" fontSize12] [];
               yTicks; tooltip; legend;
               Elem "Area" [str "type" "monotone"; val "dataKey" y_axis;
                            val "stroke" (colorAt index); val "fill" (colorAt index);
                            ("fillOpacity", PDec "0.6")] [] ]))
  else
    OK (Elem "div" [cls "flex items-center justify-center h-64 bg-gray-100 rounded-lg"]
          [ Elem "p" [cls "text-gray-500"]
              [Text "Chart type '"; Expr type; Text "' not supported"] ]).

(** [{suggestion.x_axis && (<span ...>X: {suggestion.x_axis}</span>)}] *)
Definition axisBadge (label : string) (axis : JValue) : Node :=
  if truthy axis
  then Elem "span" [cls "px-2 py-1 bg-gray-100 text-gray-600 text-xs rounded"]
         [Text label; Expr axis]
  else Expr axis.

(** [{suggestion.type.charAt(0).toUpperCase() + suggestion.type.slice(1)}] *)
Definition typeBadge (s : string) : Node :=
  if asciiFirst s
  then Expr (JStr (toUpperCase (charAt0 s) ++ slice1 s))
  else Capitalised s.

(** The point-count footer. *)
Definition footer (count : JValue) : Node :=
  Elem "div" [cls "mt-4 pt-4 border-t border-gray-200"]
    [ Elem "p" [cls "text-xs text-gray-500"]
        [Text "Showing "; Expr count; Text " data points"] ].

Definition ChartDisplay (suggestion : JValue) (index : nat) : Res Node :=
  let! title := get suggestion "title" in
  let! type := get suggestion "type" in
  let! s := stringReceiver type "charAt" in
  let! x_axis := get suggestion "x_axis" in
  let! y_axis := get suggestion "y_axis" in
  let! explanation := get suggestion "explanation" in
  let! chart := renderChart suggestion index in
  let! data := get suggestion "data" in
  let! count := get data "length" in
  OK (Elem "div" [cls "bg-white rounded-lg shadow-lg p-6"]
        [ Elem "div" [cls "mb-4"]
            [ Elem "h3" [cls "text-xl font-semibold text-gray-800 mb-2"] [Expr title];
              Elem "div" [cls "flex items-center space-x-2 mb-3"]
                [ Elem "span" [cls "px-3 py-1 bg-blue-100 text-blue-800 text-sm font-medium rounded-full"]
                    [typeBadge s; Text " Chart"];
                  axisBadge "X: " x_axis;
                  axisBadge "Y: " y_axis ];
              Elem "p" [cls "text-sm text-gray-600 mb-4"] [Expr explanation] ];
          Elem "div" [cls "h-80"] [chart];
          footer count ]).

End ChartDisplay.

(** ** Home: the upload controller *)

Module Home.

(** The three [useState] cells. *)
Record State : Type := {
  uploadResult : JValue;
  loading : bool;
  error : option string
}.

Record File : Type := { fileName : string }.

(** The request [fetch] is called with: URL, method and the entries of the
    [FormData] body. *)
Record Request : Type := {
  url : string;
  method : string;
  body : list (string * File)
}.

(** A response: its status and what awaiting [response.json()] completes
    with (the parsed body, or the error thrown for a body that is not JSON). *)
Record Response : Type := {
  status : Z;
  json : Res JValue
}.

(** [response.ok] *)
Definition ok (response : Response) : bool :=
  (200 <=? status response)%Z && (status response <=? 299)%Z.

(** Where a call of [handleFileUpload] is suspended. *)
Inductive Awaiting : Type :=
| AwaitFetch
| AwaitJson (response : Response).

(** The component in its environment: the state cells, the build-time
    [NEXT_PUBLIC_API_URL], the requests issued so far, and the calls of
    [handleFileUpload] suspended at an [await], numbered in order of issue. *)
Record World : Type := {
  state : State;
  NEXT_PUBLIC_API_URL : option string;
  issued : list Request;
  inflight : gmap nat Awaiting
}.

(** What a run of [handleFileUpload] does to the outside, in order. *)
Inductive Effect : Type :=
| setLoading (b : bool)
| setError (e : option string)
| setUploadResult (v : JValue)
| fetch (request : Request).

Definition setState (st : State) (e : Effect) : State :=
  match e with
  | setLoading b => {| uploadResult := uploadResult st; loading := b; error := error st |}
  | setError m => {| uploadResult := uploadResult st; loading := loading st; error := m |}
  | setUploadResult v => {| uploadResult := v; loading := loading st; error := error st |}
  | fetch _ => st
  end.

Definition perform (w : World) (e : Effect) : World :=
  {| state := setState (state w) e;
     NEXT_PUBLIC_API_URL := NEXT_PUBLIC_API_URL w;
     issued := match e with fetch request => issued w ++ [request] | _ => issued w end;
     inflight := match e with
                 | fetch _ => <[length (issued w) := AwaitFetch]> (inflight w)
                 | _ => inflight w
                 end |}.

Definition performAll (w : World) (es : list Effect) : World := foldl perform w es.

(** [process.env.NEXT_PUBLIC_API_URL || 'http://localhost:8000'] *)
Definition apiUrl (env : option string) : string :=
  match env with
  | Some u => if String.eqb u "" then "http://localhost:8000" else u
  | None => "http://localhost:8000"
  end.

(** [handleFileUpload] up to [await fetch(...)]. *)
Definition enter (env : option string) (file : File) : list Effect :=
  [ setLoading true;
    setError None;
    setUploadResult JNull;
    fetch {| url := apiUrl env ++ "/upload"; method := "POST"; body := [("file", file)] |} ].

(** The rest of the [try] block once [response.json()] has settled: the
    value to store, or what is thrown. *)
Definition afterJson (response : Response) : Res JValue :=
  if negb (ok response) then
    let! errorData := json response in
    let! detail := get errorData "detail" in
    let! err := newError (or_else detail (JStr "Upload failed")) in
    Throw err
  else
    json response.

(** [catch (err) { setError(err instanceof Error ? err.message : 'An error
    occurred') } finally { setLoading(false) }] *)
Definition catchFinally (err : Thrown) : list Effect :=
  [ setError (Some (match err with
                    | ErrorObj message => message
                    | NonError _ => "An error occurred"
                    end));
    setLoading false ].

(** The end of [handleFileUpload]: [setUploadResult(result)] or the [catch]
    clause, then [finally]. *)
Definition leave (completion : Res JValue) : list Effect :=
  match completion with
  | OK result => [setUploadResult result; setLoading false]
  | Throw err => catchFinally err
  end.

(** What happens to the component: the user hands over a file, the promise
    of [fetch] settles for a suspended call, or the promise of
    [response.json()] does. *)
Inductive Event : Type :=
| Submit (file : File)
| FetchSettled (id : nat) (outcome : Res Response)
| JsonSettled (id : nat).

Definition suspend (id : nat) (a : Awaiting) (w : World) : World :=
  {| state := state w; NEXT_PUBLIC_API_URL := NEXT_PUBLIC_API_URL w;
     issued := issued w; inflight := <[id := a]> (inflight w) |}.

Definition resume (id : nat) (w : World) : World :=
  {| state := state w; NEXT_PUBLIC_API_URL := NEXT_PUBLIC_API_URL w;
     issued := issued w; inflight := delete id (inflight w) |}.

(** One turn of the event loop: the code that runs, without interruption,
    from the event to the next [await] or to the end of the call.  [None]
    when the event cannot happen (no call is suspended there). *)
Definition step (w : World) (ev : Event) : option World :=
  match ev with
  | Submit file => Some (performAll w (enter (NEXT_PUBLIC_API_URL w) file))
  | FetchSettled id outcome =>
      match inflight w !! id with
      | Some AwaitFetch =>
          match outcome with
          | OK response => Some (suspend id (AwaitJson response) w)
          | Throw err => Some (performAll (resume id w) (catchFinally err))
          end
      | _ => None
      end
  | JsonSettled id =>
      match inflight w !! id with
      | Some (AwaitJson response) =>
          Some (performAll (resume id w) (leave (afterJson response)))
      | _ => None
      end
  end.

Fixpoint run (w : World) (evs : list Event) : option World :=
  match evs with
  | [] => Some w
  | ev :: rest =>
      match step w ev with
      | Some w' => run w' rest
      | None => None
      end
  end.

(** The component as first mounted. *)
Definition init (env : option string) : World :=
  {| state := {| uploadResult := JNull; loading := false; error := None |};
     NEXT_PUBLIC_API_URL := env; issued := []; inflight := ∅ |}.

(** The world just after [handleFileUpload] has issued its request. *)
Definition entered (w : World) (file : File) : World :=
  performAll w (enter (NEXT_PUBLIC_API_URL w) file).

(** States that can arise: any events, in any order they can happen. *)
Inductive reachable (env : option string) : World -> Prop :=
| reachable_init : reachable env (init env)
| reachable_step w ev w' :
    reachable env w -> step w ev = Some w' -> reachable env w'.

(** States that arise when a file is handed over only while no earlier call
    is suspended: one submission at a time. *)
Inductive reachableOneAtATime (env : option string) : World -> Prop :=
| one_init : reachableOneAtATime env (init env)
| one_submit w file w' :
    reachableOneAtATime env w -> inflight w = ∅ ->
    step w (Submit file) = Some w' -> reachableOneAtATime env w'
| one_fetch w id outcome w' :
    reachableOneAtATime env w ->
    step w (FetchSettled id outcome) = Some w' -> reachableOneAtATime env w'
| one_json w id w' :
    reachableOneAtATime env w ->
    step w (JsonSettled id) = Some w' -> reachableOneAtATime env w'.

(** The names the specification gives to the states of the controller, read
    off the three cells. *)
Inductive Phase : Type :=
| Idle
| Submitting
| Success (result : JValue)
| Failed (message : string).

Definition phase (st : State) : Phase :=
  if loading st then Submitting
  else match error st with
       | Some message => Failed message
       | None =>
           match uploadResult st with
           | JNull | JUndefined => Idle
           | result => Success result
           end
       end.

(** [error] as the value the JSX tests and shows. *)
Definition errorValue (e : option string) : JValue :=
  match e with
  | Some message => JStr message
  | None => JNull
  end.

(** [v.toLocaleString()] *)
Definition toLocaleString (v : JValue) : Res Node :=
  match v with
  | JUndefined | JNull => Throw (cannotRead v "toLocaleString")
  | _ => if localeThrows v then Throw (notAFunction "toLocaleString") else OK (LocaleText v)
  end.

(** [items.map((x, index) => f(index, x))] for an [f] that may throw. *)
Fixpoint mapFrom {A B} (f : nat -> A -> Res B) (index : nat) (items : list A) : Res (list B) :=
  match items with
  | [] => OK []
  | x :: rest =>
      let! y := f index x in
      let! ys := mapFrom f (S index) rest in
      OK (y :: ys)
  end.

(** [{error && (<div ...>...</div>)}] *)
Definition errorPanel (e : JValue) : Node :=
  if truthy e
  then Elem "div" [cls "mt-6 p-4 bg-red-100 border border-red-400 text-red-700 rounded-lg"]
         [ Elem "h3" [cls "font-semibold"] [Text "Error:"];
           Elem "p" [] [Expr e] ]
  else Expr e.

Definition columnChip (index : nat) (column : JValue) : Node :=
  Elem "span" [num "key" (Z.of_nat index);
               cls "px-3 py-1 bg-gray-200 text-gray-700 rounded-full text-sm"]
    [Expr column].

Definition tile (box heading figure label : string) (shown : Node) : Node :=
  Elem "div" [cls box]
    [ Elem "h3" [cls heading] [Text label];
      Elem "p" [cls figure] [shown] ].

(** [{uploadResult && (<div className="mt-8">...</div>)}].  Each
    [<ChartDisplay suggestion={suggestion} index={index} />] stands for what
    the component returns for these props: React calls it while rendering
    the page, and what it throws is thrown by the page. *)
Definition resultPanel (uploadResult : JValue) : Res Node :=
  if truthy uploadResult then
    let! data_info := get uploadResult "data_info" in
    let! row_count := get data_info "row_count" in
    let! rows := toLocaleString row_count in
    let! column_count := get data_info "column_count" in
    let! chart_suggestions := get uploadResult "chart_suggestions" in
    let! charts := get chart_suggestions "length" in
    let! columns := get data_info "columns" in
    let! names := arrayReceiver columns in
    let! suggestions := arrayReceiver chart_suggestions in
    let! cards := mapFrom (fun index suggestion => ChartDisplay.ChartDisplay suggestion index)
                    0 suggestions in
    OK (Elem "div" [cls "mt-8"]
          [ Elem "div" [cls "bg-white rounded-lg shadow-lg p-6 mb-6"]
              [ Elem "h2" [cls "text-2xl font-semibold text-gray-800 mb-4"]
                  [Text "Dataset Information"];
                Elem "div" [cls "grid grid-cols-1 md:grid-cols-3 gap-4 mb-4"]
                  [ tile "bg-blue-50 p-4 rounded-lg" "font-semibold text-blue-800"
                      "text-2xl font-bold text-blue-600" "Rows" rows;
                    tile "bg-green-50 p-4 rounded-lg" "font-semibold text-green-800"
                      "text-2xl font-bold text-green-600" "Columns" (Expr column_count);
                    tile "bg-purple-50 p-4 rounded-lg" "font-semibold text-purple-800"
                      "text-2xl font-bold text-purple-600" "Charts" (Expr charts) ];
                Elem "div" [cls "mb-4"]
                  [ Elem "h3" [cls "font-semibold text-gray-700 mb-2"] [Text "Columns:"];
                    Elem "div" [cls "flex flex-wrap gap-2"] (imap columnChip names) ] ];
            Elem "div" []
              [ Elem "h2" [cls "text-2xl font-semibold text-gray-800 mb-6"]
                  [Text "AI Chart Suggestions"];
                Elem "div" [cls "grid grid-cols-1 lg:grid-cols-2 gap-6"] cards ] ])
  else OK (Expr uploadResult).

(** The page around the two conditional panels. *)
Definition page (loading : bool) (errorSlot resultSlot : Node) : Node :=
  Elem "div" [cls "min-h-screen bg-gradient-to-br from-blue-50 to-indigo-100"]
    [ Elem "div" [cls "container mx-auto px-4 py-8"]
        [ Elem "div" [cls "text-center mb-8"]
            [ Elem "h1" [cls "text-4xl font-bold text-gray-800 mb-4"] [Text "Data Visualizer"];
              Elem "p" [cls "text-lg text-gray-600 max-w-2xl mx-auto"]
                [Text "Upload your CSV or Excel files and get AI-powered chart suggestions to visualize your data in meaningful ways."] ];
          Elem "div" [cls "max-w-4xl mx-auto"]
            [ Elem "FileUpload" [("onFileUpload", PRef "handleFileUpload");
                                 val "loading" (JBool loading)] [];
              errorSlot;
              resultSlot ] ] ].

(** What [Home] returns in a given state. *)
Definition Home (st : State) : Res Node :=
  let! resultSlot := resultPanel (uploadResult st) in
  OK (page (loading st) (errorPanel (errorValue (error st))) resultSlot).

End Home.
Export Home.

(** ** Reading a rendered tree *)

(** The node and everything below it, in document order. *)
Fixpoint descendants (n : Node) : list Node :=
  n :: match n with
       | Elem _ _ children =>
           (fix below (l : list Node) : list Node :=
              match l with
              | [] => []
              | c :: rest => (descendants c ++ below rest)%list
              end) children
       | _ => []
       end.

Definition hasTag (t : string) (n : Node) : bool :=
  match n with
  | Elem tag _ _ => String.eqb tag t
  | _ => false
  end.

Fixpoint attrOf (k : string) (props : list (string * PropV)) : option PropV :=
  match props with
  | [] => None
  | (k', v) :: rest => if String.eqb k k' then Some v else attrOf k rest
  end.

Definition attr (k : string) (n : Node) : option PropV :=
  match n with
  | Elem _ props _ => attrOf k props
  | _ => None
  end.

Definition childrenOf (n : Node) : list Node :=
  match n with
  | Elem _ _ children => children
  | _ => []
  end.

(** The first element with the given tag. *)
Definition findTag (t : string) (n : Node) : option Node :=
  List.find (hasTag t) (descendants n).

(** The attribute [k] of the first element tagged [t]. *)
Definition binding (t k : string) (n : Node) : option PropV :=
  findTag t n ≫= attr k.

(** The chart inside the [ResponsiveContainer]. *)
Definition family (n : Node) : option string :=
  match n with
  | Elem "ResponsiveContainer" _ [Elem tag _ _] => Some tag
  | _ => None
  end.

(** The number the footer of a card shows. *)
Definition pointCount (card : Node) : option JValue :=
  match last (childrenOf card) with
  | Some (Elem "div" _ [Elem "p" _ [Text "Showing "; Expr count; Text " data points"]]) =>
      Some count
  | _ => None
  end.

(** The chart of a card: the only child of its [h-80] box. *)
Definition chartOf (card : Node) : option Node :=
  match childrenOf card with
  | [_; Elem "div" _ [chart]; _] => Some chart
  | _ => None
  end.

(** The cards of the suggestions on a page. *)
Definition cardsOf (pg : Node) : list Node :=
  List.filter (fun n => match attr "className" n with
                        | Some (PV (JStr "bg-white rounded-lg shadow-lg p-6")) => true
                        | _ => false
                        end)
    (descendants pg).

(** ** Words of the specification used in the statements *)

(** The closed set of chart families: the [case] labels of the [switch]. *)
Definition recognised : list string := ["bar"; "line"; "pie"; "scatter"; "area"].

(** The chart element each tag stands for. *)
Definition chartFor (tag : string) : string :=
  if String.eqb tag "bar" then "BarChart"
  else if String.eqb tag "line" then "LineChart"
  else if String.eqb tag "pie" then "PieChart"
  else if String.eqb tag "scatter" then "ScatterChart"
  else "AreaChart".

(** The element that draws the series of each chart. *)
Definition seriesFor (tag : string) : string :=
  if String.eqb tag "bar" then "Bar"
  else if String.eqb tag "line" then "Line"
  else if String.eqb tag "pie" then "Pie"
  else if String.eqb tag "scatter" then "Scatter"
  else "Area".

(** The attribute that carries the colour of the series. *)
Definition paintFor (tag : string) : string :=
  if String.eqb tag "line" then "stroke" else "fill".

(** [t] spells [tag] with some of its letters in upper case. *)
Fixpoint caseVariant (tag t : string) : bool :=
  match tag, t with
  | EmptyString, EmptyString => true
  | String c tag', String d t' =>
      (Ascii.eqb d c || Ascii.eqb d (upperChar c)) && caseVariant tag' t'
  | _, _ => false
  end.

Definition isLowerLetter (c : ascii) : bool :=
  let n := nat_of_ascii c in (97 <=? n)%nat && (n <=? 122)%nat.

Fixpoint allLower (s : string) : bool :=
  match s with
  | EmptyString => true
  | String c rest => isLowerLetter c && allLower rest
  end.

(** The fallback of [renderChart]. *)
Definition placeholder (type : JValue) : Node :=
  Elem "div" [cls "flex items-center justify-center h-64 bg-gray-100 rounded-lg"]
    [ Elem "p" [cls "text-gray-500"]
        [Text "Chart type '"; Expr type; Text "' not supported"] ].

(** The [Cell]s of a pie and their colours. *)
Definition slices (chart : Node) : list Node :=
  match findTag "Pie" chart with
  | Some pie => childrenOf pie
  | None => []
  end.

Definition sliceColours (chart : Node) : list (option PropV) :=
  attr "fill" <$> slices chart.

Definition withType (t : string) (s : ChartSuggestion) : ChartSuggestion :=
  {| type := t; title := title s; x_axis := x_axis s; y_axis := y_axis s;
     explanation := explanation s; data := data s |}.

(** ** Sample inputs *)

Definition sampleFile : File := {| fileName := "sales.csv" |}.
Definition otherFile : File := {| fileName := "costs.csv" |}.

Definition sampleInfo : JValue :=
  JObj [("columns", JArr [JStr "a"; JStr "b"]); ("row_count", JNum 2);
        ("column_count", JNum 2); ("sample_data", JArr []);
        ("column_types", JObj [("a", JStr "string"); ("b", JStr "number")])].

(** A body with [chart_suggestions] absent. *)
Definition bodyWithoutCharts : JValue :=
  JObj [("status", JStr "ok"); ("data_info", sampleInfo)].

(** A body as the interface [UploadResponse] describes it, with one chart. *)
Definition bodyWith (chartTitle : string) : JValue :=
  JObj [("status", JStr "ok"); ("data_info", sampleInfo);
        ("chart_suggestions",
         JArr [toJS {| type := "bar"; title := chartTitle; x_axis := Some "a";
                       y_axis := Some "b"; explanation := "E";
                       data := [JObj [("a", JStr "x"); ("b", JNum 1)];
                                JObj [("a", JStr "y"); ("b", JNum 2)]] |}])].

Definition respond (code : Z) (parsed : JValue) : Response :=
  {| status := code; json := OK parsed |}.

(** ** The typed response *)

Module Wire.

(** [data_info] of [interface UploadResponse]. *)
Record DataInfo : Type := {
  columns : list string;
  row_count : Z;
  column_count : Z;
  sample_data : list JValue;
  column_types : list (string * string)
}.

(** [interface UploadResponse] *)
Record UploadResponse : Type := {
  status : string;
  data_info : DataInfo;
  chart_suggestions : list ChartSuggestion
}.

Definition infoToJS (d : DataInfo) : JValue :=
  JObj [("columns", JArr (JStr <$> columns d));
        ("row_count", JNum (row_count d));
        ("column_count", JNum (column_count d));
        ("sample_data", JArr (sample_data d));
        ("column_types", JObj (prod_map id JStr <$> column_types d))].

(** The run-time object of a well-typed response. *)
Definition responseToJS (r : UploadResponse) : JValue :=
  JObj [("status", JStr (status r));
        ("data_info", infoToJS (data_info r));
        ("chart_suggestions", JArr (toJS <$> chart_suggestions r))].

End Wire.

(** ** Reading a run and a rendered page *)

(** The files handed over in a run, in order. *)
Definition submitted (evs : list Event) : list File :=
  flat_map (fun ev => match ev with Submit file => [file] | _ => [] end) evs.



(** The two conditional children of the page: what stands where the error
    box goes and what stands where the results go. *)
Definition slotsOf (pg : Node) : option (Node * Node) :=
  match pg with
  | Elem _ _ [Elem _ _ [_; Elem _ _ [_; errorSlot; resultSlot]]] => Some (errorSlot, resultSlot)
  | _ => None
  end.

(** The message in the error box, when the box is there. *)
Definition shownError (pg : Node) : option JValue :=
  match slotsOf pg with
  | Some (Elem _ _ [_; Elem "p" _ [Expr message]], _) => Some message
  | _ => None
  end.

(** Whether the results are there. *)
Definition resultsShown (pg : Node) : bool :=
  match slotsOf pg with
  | Some (_, Elem _ _ _) => true
  | _ => false
  end.

Definition hasClass (c : string) (n : Node) : bool :=
  match attr "className" n with
  | Some (PV (JStr c')) => String.eqb c' c
  | _ => false
  end.

Definition isTile (label : string) (n : Node) : bool :=
  match n with
  | Elem "div" _ [Elem "h3" _ [Text l]; Elem "p" _ [_]] => String.eqb l label
  | _ => false
  end.

(** The figure of the first tile headed [label]. *)
Definition tileFigure (label : string) (pg : Node) : option Node :=
  match List.find (isTile label) (descendants pg) with
  | Some (Elem _ _ [_; Elem _ _ [shown]]) => Some shown
  | _ => None
  end.

(** The chips of the column names. *)
Definition chipsOf (pg : Node) : list Node :=
  match List.find (hasClass "flex flex-wrap gap-2") (descendants pg) with
  | Some box => childrenOf box
  | None => []
  end.

(** The axis badges of a card, in order. *)
Definition axisBadgesOf (card : Node) : list Node :=
  List.filter (hasClass "px-2 py-1 bg-gray-100 text-gray-600 text-xs rounded")
    (descendants card).

(** The [key] of an element. *)
Definition keyOf (n : Node) : option PropV := attr "key" n.

(** [null] or [undefined] *)
Definition nullish (v : JValue) : bool :=
  match v with
  | JUndefined | JNull => true
  | _ => false
  end.

(** * The model on concrete inputs *)

Example ToString_array :
  ToString (JArr [JNum 1; JNull; JStr "a"; JArr [JBool true; JNum (-2)]]) = OK "1,,a,true,-2".
Proof. vm_compute. reflexivity. Qed.

Example toLowerCase_mixed : toLowerCase "ScAtTeR" = "scatter".
Proof. reflexivity. Qed.

(** The end-to-end scenario: a 200 response with one bar suggestion over
    two records.  The controller ends in the success state and the page
    shows one card, a bar chart keyed by [a] and [b], with 2 points. *)
Example one_bar_chart :
  exists w' pg card chart,
    run (init None) [Submit sampleFile;
                     FetchSettled 0 (OK (respond 200 (bodyWith "T")));
                     JsonSettled 0] = Some w' /\
    phase (state w') = Success (bodyWith "T") /\
    Home (state w') = OK pg /\
    cardsOf pg = [card] /\
    chartOf card = Some chart /\
    family chart = Some "BarChart" /\
    binding "XAxis" "dataKey" chart = Some (PV (JStr "a")) /\
    binding "Bar" "dataKey" chart = Some (PV (JStr "b")) /\
    pointCount card = Some (JNum 2).
Proof.
  do 4 eexists. split; [reflexivity|].
  split; [reflexivity|]. split; [vm_compute; reflexivity|].
  split; [vm_compute; reflexivity|]. repeat split.
Qed.

(** A validation error of the producer carries a list as [detail]: the
    message is the list turned into a string. *)
Example detail_list :
  (state <$> run (init None)
     [Submit sampleFile;
      FetchSettled 0 (OK (respond 422 (JObj [("detail", JArr [JObj [("msg", JStr "field required")]])])));
      JsonSettled 0])
  = Some {| uploadResult := JNull; loading := false; error := Some "[object Object]" |}.
Proof. vm_compute. reflexivity. Qed.

(** * Properties of the renderer *)

Section Renderer.

Import ChartDisplay.

Local Arguments colorAt : simpl never.

Lemma get_toJS_type s : get (toJS s) "type" = OK (JStr (type s)).
Proof. reflexivity. Qed.

Lemma get_toJS_title s : get (toJS s) "title" = OK (JStr (title s)).
Proof. reflexivity. Qed.

Lemma get_toJS_x_axis s : get (toJS s) "x_axis" = OK (axisValue (x_axis s)).
Proof. destruct s as [? ? [x|] [y|] ? ?]; reflexivity. Qed.

Lemma get_toJS_y_axis s : get (toJS s) "y_axis" = OK (axisValue (y_axis s)).
Proof. destruct s as [? ? [x|] [y|] ? ?]; reflexivity. Qed.

Lemma get_toJS_explanation s : get (toJS s) "explanation" = OK (JStr (explanation s)).
Proof. destruct s as [? ? [x|] [y|] ? ?]; reflexivity. Qed.

Lemma get_toJS_data s : get (toJS s) "data" = OK (JArr (data s)).
Proof. destruct s as [? ? [x|] [y|] ? ?]; reflexivity. Qed.

(** [renderChart] on a well-typed suggestion, with the reads done. *)
Lemma renderChart_toJS s i :
  renderChart (toJS s) i =
  renderChart (JObj [("data", JArr (data s)); ("type", JStr (type s));
                     ("x_axis", axisValue (x_axis s)); ("y_axis", axisValue (y_axis s))]) i.
Proof.
  unfold renderChart.
  rewrite get_toJS_data, get_toJS_type, get_toJS_x_axis, get_toJS_y_axis.
  reflexivity.
Qed.

Lemma elem_recognised tag :
  tag ∈ recognised ->
  tag = "bar" \/ tag = "line" \/ tag = "pie" \/ tag = "scatter" \/ tag = "area".
Proof.
  unfold recognised. rewrite !elem_of_cons, elem_of_nil. tauto.
Qed.

Lemma lowerChar_variant c d :
  isLowerLetter c = true ->
  (Ascii.eqb d c || Ascii.eqb d (upperChar c)) = true ->
  lowerChar d = c.
Proof.
  intros Hc Hd. apply orb_true_iff in Hd as [Hd|Hd]; apply Ascii.eqb_eq in Hd; subst d;
    revert Hc; destruct c as [[] [] [] [] [] [] [] []]; vm_compute; congruence.
Qed.

Lemma caseVariant_toLowerCase tag :
  forall t, allLower tag = true -> caseVariant tag t = true -> toLowerCase t = tag.
Proof.
  induction tag as [|c tag IH]; intros [|d t]; simpl; try discriminate; auto.
  intros Hl Hv.
  apply andb_true_iff in Hl as [Hc Hl]. apply andb_true_iff in Hv as [Hd Hv].
  f_equal; [exact (lowerChar_variant c d Hc Hd) | exact (IH t Hl Hv)].
Qed.

Lemma recognised_allLower tag : tag ∈ recognised -> allLower tag = true.
Proof.
  intros H. apply elem_recognised in H as [->|[->|[->|[->| ->]]]]; reflexivity.
Qed.

Lemma colorAt_cycle i : colorAt (i + 6) = colorAt i.
Proof.
  unfold colorAt. change (length COLORS) with 6.
  replace ((i + 6) mod 6) with (i mod 6); [reflexivity|].
  rewrite <- (Nat.Div0.add_mod_idemp_r i 6 6). change (6 mod 6) with 0.
  rewrite Nat.add_0_r. reflexivity.
Qed.

Lemma colorAt_palette i : exists c, COLORS !! (i mod 6) = Some c /\ colorAt i = JStr c.
Proof.
  unfold colorAt. change (length COLORS) with 6.
  assert (H : i mod 6 < 6) by (apply Nat.mod_upper_bound; discriminate).
  destruct (i mod 6) as [|[|[|[|[|[|n]]]]]]; [eexists; split; reflexivity ..| lia].
Qed.

(** Evaluate [renderChart] on a well-typed suggestion whose lowercased tag
    is known. *)
Ltac render_tag H :=
  rewrite renderChart_toJS; unfold renderChart; simpl; rewrite H; simpl.

Lemma pieLabel_name name rest pct :
  pieLabel (JObj (("name", JStr name) :: rest)) pct = OK (name ++ " " ++ pct ++ "%").
Proof. reflexivity. Qed.

Lemma not_recognised tag :
  tag ∉ recognised ->
  String.eqb tag "bar" = false /\ String.eqb tag "line" = false /\
  String.eqb tag "pie" = false /\ String.eqb tag "scatter" = false /\
  String.eqb tag "area" = false.
Proof.
  unfold recognised. rewrite !not_elem_of_cons. intros (?&?&?&?&?&_).
  repeat split; apply String.eqb_neq; assumption.
Qed.

Lemma renderChart_fallback s i :
  toLowerCase (type s) ∉ recognised ->
  renderChart (toJS s) i = OK (placeholder (JStr (type s))).
Proof.
  intros H. apply not_recognised in H as (H1&H2&H3&H4&H5).
  rewrite renderChart_toJS. unfold renderChart. simpl.
  rewrite H1, H2, H3, H4, H5. reflexivity.
Qed.

(** What [renderChart] gives on a well-typed suggestion: never a throw. *)
Lemma renderChart_cases s i :
  (toLowerCase (type s) ∈ recognised /\
   exists chart, renderChart (toJS s) i = OK chart /\
     family chart = Some (chartFor (toLowerCase (type s))) /\
     attr "data" chart = Some (PV (JArr (data s))) /\
     slices chart = if String.eqb (toLowerCase (type s)) "pie" then imap cell (data s) else [])
  \/
  ((toLowerCase (type s) ∉ recognised) /\
   renderChart (toJS s) i = OK (placeholder (JStr (type s)))).
Proof.
  destruct (decide (toLowerCase (type s) ∈ recognised)) as [Hin|Hout].
  - left. split; [exact Hin|].
    apply elem_recognised in Hin as [E|[E|[E|[E|E]]]];
      eexists; (split; [render_tag E; reflexivity|]); rewrite E; repeat split; reflexivity.
  - right. split; [exact Hout | exact (renderChart_fallback s i Hout)].
Qed.

(** The card around a chart: title, badges, the chart, the footer. *)
Lemma ChartDisplay_toJS s i chart :
  renderChart (toJS s) i = OK chart ->
  exists card,
    ChartDisplay (toJS s) i = OK card /\
    chartOf card = Some chart /\
    pointCount card = Some (JNum (Z.of_nat (length (data s)))).
Proof.
  intros Hr. unfold ChartDisplay.
  rewrite get_toJS_title, get_toJS_type, get_toJS_x_axis, get_toJS_y_axis,
    get_toJS_explanation, get_toJS_data, Hr.
  simpl. eexists. repeat split.
Qed.

Lemma family_placeholder v : family (placeholder v) = None.
Proof. reflexivity. Qed.

(** C4.  A suggestion whose [type], lowercased, is one of the five
    recognised tags renders as the chart of that family inside the
    responsive container.  For bar, line, scatter and area the chart gets the
    suggestion's [data], the x axis is keyed by [x_axis] and the series by
    [y_axis] (for scatter the y axis as well); for pie the [Pie] gets the
    [data], its slices are sized by the fixed field [value] and labelled by
    the function that reads the field [name].  Rendering is a function of the
    suggestion and the index that returns a tree: it only reads the
    suggestion, which is handed on to the chart as it is. *)
Theorem recognised_type_binding (s : ChartSuggestion) (i : nat) (tag : string) :
  tag ∈ recognised ->
  toLowerCase (type s) = tag ->
  exists chart,
    renderChart (toJS s) i = OK chart /\
    family chart = Some (chartFor tag) /\
    attr "data" chart = Some (PV (JArr (data s))) /\
    binding (seriesFor tag) "dataKey" chart =
      Some (PV (if String.eqb tag "pie" then JStr "value" else axisValue (y_axis s))) /\
    (tag <> "pie" ->
       binding (chartFor tag) "data" chart = Some (PV (JArr (data s))) /\
       binding "XAxis" "dataKey" chart = Some (PV (axisValue (x_axis s)))) /\
    (tag = "scatter" ->
       binding "YAxis" "dataKey" chart = Some (PV (axisValue (y_axis s)))) /\
    (tag = "pie" ->
       binding "Pie" "data" chart = Some (PV (JArr (data s))) /\
       binding "Pie" "label" chart = Some (PFn pieLabel) /\
       forall name rest pct,
         pieLabel (JObj (("name", JStr name) :: rest)) pct = OK (name ++ " " ++ pct ++ "%")).
Proof.
  intros Hin Htag.
  apply elem_recognised in Hin as [E|[E|[E|[E|E]]]]; subst tag;
    eexists; (split; [render_tag Htag; reflexivity|]);
    repeat split; try reflexivity; try discriminate; congruence.
Qed.

Lemma recognised_type_binding_witness :
  exists chart,
    renderChart (toJS {| type := "Scatter"; title := "T"; x_axis := Some "a"; y_axis := Some "b";
                         explanation := "E"; data := [JObj [("a", JNum 1); ("b", JNum 2)]] |}) 0
      = OK chart /\
    family chart = Some "ScatterChart" /\
    binding "Scatter" "dataKey" chart = Some (PV (JStr "b")).
Proof.
  destruct (recognised_type_binding
              {| type := "Scatter"; title := "T"; x_axis := Some "a"; y_axis := Some "b";
                 explanation := "E"; data := [JObj [("a", JNum 1); ("b", JNum 2)]] |}
              0 "scatter") as (chart & Hr & Hf & _ & Hs & _).
  - unfold recognised. rewrite !elem_of_cons. tauto.
  - reflexivity.
  - exists chart. repeat split; assumption.
Defined.

(** C3.  A suggestion whose [type], lowercased, is none of the five tags
    renders without a throw: [renderChart] returns the placeholder that
    quotes the [type] as given, and the card still ends with the footer that
    shows [data.length].  A suggestion whose [type] spells one of the five
    tags in mixed case does not get the placeholder: it renders as the chart
    of that tag. *)
Theorem unsupported_type_fallback (s v : ChartSuggestion) (i : nat) (tag : string) :
  toLowerCase (type s) ∉ recognised ->
  tag ∈ recognised ->
  caseVariant tag (type v) = true ->
  (renderChart (toJS s) i = OK (placeholder (JStr (type s))) /\
   exists card,
     ChartDisplay (toJS s) i = OK card /\
     chartOf card = Some (placeholder (JStr (type s))) /\
     pointCount card = Some (JNum (Z.of_nat (length (data s))))) /\
  (exists chart,
     renderChart (toJS v) i = OK chart /\
     family chart = Some (chartFor tag) /\
     chart <> placeholder (JStr (type v))).
Proof.
  intros Hout Hin Hv. split.
  - pose proof (renderChart_fallback s i Hout) as Hr.
    split; [exact Hr | exact (ChartDisplay_toJS s i _ Hr)].
  - pose proof (caseVariant_toLowerCase tag (type v) (recognised_allLower tag Hin) Hv) as Hl.
    destruct (renderChart_cases v i) as [(_ & chart & Hr & Hf & _)|(Hno & _)].
    + exists chart. rewrite Hl in Hf. repeat split; [exact Hr | exact Hf |].
      intros ->. rewrite family_placeholder in Hf. discriminate.
    + rewrite Hl in Hno. contradiction.
Qed.

Lemma unsupported_type_fallback_witness :
  renderChart (toJS {| type := "Histogram"; title := "T"; x_axis := None; y_axis := None;
                       explanation := "E"; data := [JNum 1; JNum 2; JNum 3] |}) 2
    = OK (placeholder (JStr "Histogram")) /\
  exists chart,
    renderChart (toJS {| type := "BaR"; title := "T"; x_axis := Some "a"; y_axis := Some "b";
                         explanation := "E"; data := [] |}) 2 = OK chart /\
    family chart = Some "BarChart".
Proof.
  destruct (unsupported_type_fallback
              {| type := "Histogram"; title := "T"; x_axis := None; y_axis := None;
                 explanation := "E"; data := [JNum 1; JNum 2; JNum 3] |}
              {| type := "BaR"; title := "T"; x_axis := Some "a"; y_axis := Some "b";
                 explanation := "E"; data := [] |}
              2 "bar") as [[Hs _] (chart & Hr & Hf & _)].
  - unfold recognised. rewrite !not_elem_of_cons. repeat split; try discriminate.
    apply not_elem_of_nil.
  - unfold recognised. rewrite !elem_of_cons. tauto.
  - reflexivity.
  - split; [exact Hs|]. exists chart. split; assumption.
Defined.

(** C6.  The palette has six colours.  For bar, line, scatter and area the
    series is painted with [COLORS[index % 6]], so the chart at index [i + 6]
    is the chart at index [i]. *)
Theorem palette_cycle (s : ChartSuggestion) (i : nat) (tag : string) :
  tag ∈ ["bar"; "line"; "scatter"; "area"] ->
  toLowerCase (type s) = tag ->
  length COLORS = 6 /\
  exists chart c,
    renderChart (toJS s) i = OK chart /\
    renderChart (toJS s) (i + 6) = OK chart /\
    COLORS !! (i mod 6) = Some c /\
    binding (seriesFor tag) (paintFor tag) chart = Some (PV (JStr c)) /\
    (tag = "area" -> binding "Area" "stroke" chart = Some (PV (JStr c))).
Proof.
  intros Hin Htag. split; [reflexivity|].
  destruct (colorAt_palette i) as (c & Hc & Hi).
  rewrite !elem_of_cons, elem_of_nil in Hin.
  destruct Hin as [E|[E|[E|[E|[]]]]]; subst tag;
    eexists; exists c;
    (split; [render_tag Htag; rewrite Hi; reflexivity|]);
    (split; [render_tag Htag; rewrite colorAt_cycle, Hi; reflexivity|]);
    (split; [exact Hc|]); split; try reflexivity; discriminate.
Qed.

Lemma palette_cycle_witness :
  exists chart,
    renderChart (toJS {| type := "line"; title := "T"; x_axis := Some "a"; y_axis := Some "b";
                         explanation := "E"; data := [] |}) 1 = OK chart /\
    renderChart (toJS {| type := "line"; title := "T"; x_axis := Some "a"; y_axis := Some "b";
                         explanation := "E"; data := [] |}) 7 = OK chart /\
    binding "Line" "stroke" chart = Some (PV (JStr "#00C49F")).
Proof.
  destruct (palette_cycle
              {| type := "line"; title := "T"; x_axis := Some "a"; y_axis := Some "b";
                 explanation := "E"; data := [] |} 1 "line")
    as (_ & chart & c & H1 & H7 & Hc & Hb & _).
  - rewrite !elem_of_cons. tauto.
  - reflexivity.
  - exists chart. injection Hc as <-. repeat split; assumption.
Defined.

Lemma sliceColours_cells (entries : list JValue) k :
  k < length entries ->
  (attr "fill" <$> imap cell entries) !! k = Some (Some (PV (colorAt k))).
Proof.
  intros Hk. rewrite list_lookup_fmap, list_lookup_imap.
  destruct (lookup_lt_is_Some_2 entries k Hk) as [entry ->]. reflexivity.
Qed.

(** C7.  In a pie the colour of a slice is [COLORS[k % 6]] for its position
    [k] in the suggestion's own [data]; the index of the suggestion on the
    page plays no part.  Two pies with the same data, wherever they stand,
    get the same slice colours. *)
Theorem pie_slice_colours (s1 s2 : ChartSuggestion) (i j : nat) :
  toLowerCase (type s1) = "pie" ->
  toLowerCase (type s2) = "pie" ->
  data s1 = data s2 ->
  exists c1 c2,
    renderChart (toJS s1) i = OK c1 /\
    renderChart (toJS s1) j = OK c1 /\
    renderChart (toJS s2) j = OK c2 /\
    sliceColours c1 = sliceColours c2 /\
    length (slices c1) = length (data s1) /\
    forall k, k < length (data s1) ->
      sliceColours c1 !! k = Some (Some (PV (colorAt k))) /\
      exists c, COLORS !! (k mod length COLORS) = Some c /\ colorAt k = JStr c.
Proof.
  intros H1 H2 Hd.
  eexists; eexists.
  split; [render_tag H1; reflexivity|].
  split; [render_tag H1; reflexivity|].
  split; [render_tag H2; reflexivity|].
  split; [unfold sliceColours, slices; simpl; rewrite Hd; reflexivity|].
  split; [unfold slices; simpl; apply length_imap|].
  intros k Hk. split.
  - unfold sliceColours, slices. simpl. apply sliceColours_cells, Hk.
  - exact (colorAt_palette k).
Qed.

Lemma pie_slice_colours_witness :
  exists c1 c2,
    renderChart (toJS {| type := "Pie"; title := "A"; x_axis := None; y_axis := None;
                         explanation := "E";
                         data := [JObj [("name", JStr "u"); ("value", JNum 1)];
                                  JObj [("name", JStr "v"); ("value", JNum 3)]] |}) 0 = OK c1 /\
    renderChart (toJS {| type := "pie"; title := "B"; x_axis := None; y_axis := None;
                         explanation := "F";
                         data := [JObj [("name", JStr "u"); ("value", JNum 1)];
                                  JObj [("name", JStr "v"); ("value", JNum 3)]] |}) 4 = OK c2 /\
    sliceColours c1 = sliceColours c2.
Proof.
  destruct (pie_slice_colours
              {| type := "Pie"; title := "A"; x_axis := None; y_axis := None;
                 explanation := "E";
                 data := [JObj [("name", JStr "u"); ("value", JNum 1)];
                          JObj [("name", JStr "v"); ("value", JNum 3)]] |}
              {| type := "pie"; title := "B"; x_axis := None; y_axis := None;
                 explanation := "F";
                 data := [JObj [("name", JStr "u"); ("value", JNum 1)];
                          JObj [("name", JStr "v"); ("value", JNum 3)]] |}
              0 4) as (c1 & c2 & H1 & _ & H2 & Hc & _).
  - reflexivity.
  - reflexivity.
  - reflexivity.
  - exists c1, c2. repeat split; assumption.
Defined.



End Renderer.

(** * Properties of the upload controller *)

Section Controller.

Lemma state_performAll w es : state (performAll w es) = foldl setState (state w) es.
Proof.
  revert w. induction es as [|e es IH]; intros w; [reflexivity|].
  simpl. rewrite IH. reflexivity.
Qed.

Lemma run_cons w ev w' evs : step w ev = Some w' -> run w (ev :: evs) = run w' evs.
Proof. intros H. simpl. rewrite H. reflexivity. Qed.

Lemma run_app w evs1 evs2 w1 :
  run w evs1 = Some w1 -> run w (evs1 ++ evs2) = run w1 evs2.
Proof.
  revert w. induction evs1 as [|ev evs1 IH]; intros w; simpl.
  - intros [= ->]. reflexivity.
  - destruct (step w ev); [apply IH | discriminate].
Qed.

Lemma reachable_run env w evs w' :
  reachable env w -> run w evs = Some w' -> reachable env w'.
Proof.
  revert w. induction evs as [|ev evs IH]; intros w Hw; simpl.
  - intros [= <-]. exact Hw.
  - destruct (step w ev) as [w1|] eqn:Hs; [|discriminate].
    apply IH. exact (reachable_step env w ev w1 Hw Hs).
Qed.

Lemma state_entered w file :
  state (entered w file) = {| uploadResult := JNull; loading := true; error := None |}.
Proof. reflexivity. Qed.

Lemma inflight_entered w file :
  inflight (entered w file) = <[length (issued w) := AwaitFetch]> (inflight w).
Proof. reflexivity. Qed.

Lemma issued_entered w file :
  length (issued (entered w file)) = S (length (issued w)).
Proof. simpl. rewrite length_app. simpl. lia. Qed.

Lemma step_fetch_ok w id response :
  inflight w !! id = Some AwaitFetch ->
  step w (FetchSettled id (OK response)) = Some (suspend id (AwaitJson response) w).
Proof. intros H. simpl. rewrite H. reflexivity. Qed.

Lemma step_fetch_throw w id err :
  inflight w !! id = Some AwaitFetch ->
  step w (FetchSettled id (Throw err)) = Some (performAll (resume id w) (catchFinally err)).
Proof. intros H. simpl. rewrite H. reflexivity. Qed.

Lemma step_json w id response :
  inflight w !! id = Some (AwaitJson response) ->
  step w (JsonSettled id) = Some (performAll (resume id w) (leave (afterJson response))).
Proof. intros H. simpl. rewrite H. reflexivity. Qed.

(** The effects of the end of a call do not touch the suspended calls. *)
Lemma inflight_leave w completion :
  inflight (performAll w (leave completion)) = inflight w.
Proof. destruct completion; reflexivity. Qed.

Lemma inflight_catchFinally w err :
  inflight (performAll w (catchFinally err)) = inflight w.
Proof. reflexivity. Qed.

(** One submission and its response, from any world: the call runs to its
    end, and the cells are those the end of the call writes over the cells
    as cleared on entry. *)
Lemma round_trip w file response :
  exists w',
    run w [Submit file;
           FetchSettled (length (issued w)) (OK response);
           JsonSettled (length (issued w))] = Some w' /\
    state w' = foldl setState {| uploadResult := JNull; loading := true; error := None |}
                 (leave (afterJson response)) /\
    inflight w' = delete (length (issued w)) (inflight w).
Proof.
  set (id := length (issued w)).
  eexists. split; [|split].
  - rewrite (run_cons _ _ (entered w file)) by reflexivity.
    rewrite (run_cons _ _ _ _ (step_fetch_ok _ id response
               ltac:(rewrite inflight_entered; apply lookup_insert_eq))).
    rewrite (run_cons _ _ _ _ (step_json (suspend id (AwaitJson response) (entered w file))
               id response ltac:(apply lookup_insert_eq))).
    reflexivity.
  - rewrite state_performAll. reflexivity.
  - rewrite inflight_leave. simpl.
    rewrite insert_insert_eq, delete_insert_eq. reflexivity.
Qed.

(** One submission whose request fails before any response. *)
Lemma round_trip_rejected w file err :
  exists w',
    run w [Submit file; FetchSettled (length (issued w)) (Throw err)] = Some w' /\
    state w' = foldl setState {| uploadResult := JNull; loading := true; error := None |}
                 (catchFinally err).
Proof.
  eexists. split.
  - rewrite (run_cons _ _ (entered w file)) by reflexivity.
    rewrite (run_cons _ _ _ _ (step_fetch_throw _ (length (issued w)) err
               ltac:(rewrite inflight_entered; apply lookup_insert_eq))).
    reflexivity.
  - rewrite state_performAll. reflexivity.
Qed.

(** The end of a call that is awaiting its body, in any world: the cells
    are those [leave] writes over the cells as they are. *)
Lemma ending_json w id response :
  inflight w !! id = Some (AwaitJson response) ->
  exists w',
    step w (JsonSettled id) = Some w' /\
    state w' = foldl setState (state w) (leave (afterJson response)) /\
    inflight w' = delete id (inflight w).
Proof.
  intros H. eexists. split; [apply step_json, H|].
  split; [rewrite state_performAll | rewrite inflight_leave]; reflexivity.
Qed.

(** The end of a call whose request fails, in any world. *)
Lemma ending_fetch w id err :
  inflight w !! id = Some AwaitFetch ->
  exists w',
    step w (FetchSettled id (Throw err)) = Some w' /\
    state w' = foldl setState (state w) (leave (Throw err)) /\
    inflight w' = delete id (inflight w).
Proof.
  intros H. eexists. split; [apply step_fetch_throw, H|].
  split; [rewrite state_performAll|]; reflexivity.
Qed.

Lemma leave_OK st result :
  foldl setState st (leave (OK result))
  = {| uploadResult := result; loading := false; error := error st |}.
Proof. reflexivity. Qed.

Lemma leave_Throw st err :
  foldl setState st (leave (Throw err))
  = {| uploadResult := uploadResult st; loading := false;
       error := Some (match err with
                      | ErrorObj message => message
                      | NonError _ => "An error occurred"
                      end) |}.
Proof. reflexivity. Qed.

Lemma afterJson_ok response :
  ok response = true -> afterJson response = json response.
Proof. intros H. unfold afterJson. rewrite H. reflexivity. Qed.

Lemma afterJson_unparsed response err :
  json response = Throw err -> afterJson response = Throw err.
Proof. intros H. unfold afterJson. rewrite H. destruct (negb _); reflexivity. Qed.

(** A world with one call awaiting its body. *)
Lemma lookup_suspended w file response :
  inflight (suspend (length (issued w)) (AwaitJson response) (entered w file))
    !! length (issued w) = Some (AwaitJson response).
Proof. apply lookup_insert_eq. Qed.

Lemma afterJson_rejects response :
  ok response = false -> exists err, afterJson response = Throw err.
Proof.
  intros Hok. unfold afterJson. rewrite Hok. simpl.
  destruct (json response) as [errorData|t]; simpl; [|eauto].
  destruct (get errorData "detail") as [detail|t]; simpl; [|eauto].
  destruct (newError _) as [err|t]; simpl; eauto.
Qed.

Lemma afterJson_detail response errorData d :
  ok response = false -> json response = OK errorData ->
  get errorData "detail" = OK (JStr d) -> d <> "" ->
  afterJson response = Throw (ErrorObj d).
Proof.
  intros Hok Hj Hd Hne. unfold afterJson. rewrite Hok, Hj. simpl. rewrite Hd. simpl.
  unfold or_else. simpl. apply String.eqb_neq in Hne. rewrite Hne. reflexivity.
Qed.

Lemma afterJson_generic response errorData detail :
  ok response = false -> json response = OK errorData ->
  get errorData "detail" = OK detail -> truthy detail = false ->
  afterJson response = Throw (ErrorObj "Upload failed").
Proof.
  intros Hok Hj Hd Hf. unfold afterJson. rewrite Hok, Hj. simpl. rewrite Hd. simpl.
  unfold or_else. rewrite Hf. reflexivity.
Qed.

Lemma no_cards_without_result loading message :
  exists pg,
    Home {| uploadResult := JNull; loading := loading; error := Some message |} = OK pg /\
    cardsOf pg = [].
Proof.
  exists (page loading (errorPanel (JStr message)) (Expr JNull)).
  split; [reflexivity|].
  unfold errorPanel, truthy.
  destruct (String.eqb message ""); reflexivity.
Qed.

(** C2, as the code has it.  A 2xx response never counts as a parse
    failure because of what its body holds.  When the call ends, a body that
    parsed is stored as the result whatever its shape, [loading] goes down
    and the error is left as it was; only a body that does not parse (the
    promise of [response.json()] is rejected) sets the error.  After a
    submission that no other overlaps the error is null, and the controller
    is in the success state with that body, [chart_suggestions] or not; a
    body that is the JSON [null] leaves it as when idle. *)
Theorem success_body_stored_unchecked (w : World) (id : nat) (response : Response) :
  inflight w !! id = Some (AwaitJson response) ->
  ok response = true ->
  (exists w',
     step w (JsonSettled id) = Some w' /\
     loading (state w') = false /\
     match json response with
     | OK parsed =>
         uploadResult (state w') = parsed /\ error (state w') = error (state w)
     | Throw err =>
         exists message,
           error (state w') = Some message /\
           uploadResult (state w') = uploadResult (state w) /\
           phase (state w') = Failed message
     end) /\
  (forall w0 file, exists w1,
     run w0 [Submit file;
             FetchSettled (length (issued w0)) (OK response);
             JsonSettled (length (issued w0))] = Some w1 /\
     match json response with
     | OK parsed =>
         state w1 = {| uploadResult := parsed; loading := false; error := None |} /\
         phase (state w1) = if nullish parsed then Idle else Success parsed
     | Throw err =>
         exists message,
           state w1 = {| uploadResult := JNull; loading := false; error := Some message |} /\
           phase (state w1) = Failed message
     end).
Proof.
  intros Hl Hok. split.
  - destruct (ending_json w id response Hl) as (w' & Hstep & Hst & _).
    exists w'. split; [exact Hstep|].
    rewrite (afterJson_ok response Hok) in Hst. rewrite Hst.
    destruct (json response) as [parsed|err].
    + rewrite leave_OK. repeat split.
    + rewrite leave_Throw. split; [reflexivity|]. eexists. repeat split.
  - intros w0 file. destruct (round_trip w0 file response) as (w1 & Hrun & Hst & _).
    exists w1. split; [exact Hrun|].
    rewrite (afterJson_ok response Hok) in Hst. rewrite Hst.
    destruct (json response) as [parsed|err].
    + split; [reflexivity|]. destruct parsed; reflexivity.
    + eexists. split; reflexivity.
Qed.

Lemma success_body_stored_unchecked_witness :
  exists w1,
    run (init None) [Submit sampleFile;
                     FetchSettled 0 (OK (respond 200 bodyWithoutCharts));
                     JsonSettled 0] = Some w1 /\
    state w1 = {| uploadResult := bodyWithoutCharts; loading := false; error := None |} /\
    phase (state w1) = Success bodyWithoutCharts.
Proof.
  destruct (success_body_stored_unchecked
              (suspend 0 (AwaitJson (respond 200 bodyWithoutCharts))
                 (entered (init None) sampleFile))
              0 (respond 200 bodyWithoutCharts)) as [_ H].
  - reflexivity.
  - reflexivity.
  - destruct (H (init None) sampleFile) as (w1 & Hrun & Hst & Hph).
    exists w1. repeat split; assumption.
Defined.

(** C2, as the claim has it, fails: a 200 response whose body lacks
    [chart_suggestions] does not lead to the failed state. *)
Lemma missing_chart_suggestions_not_failed :
  ~ (forall w',
       run (init None) [Submit sampleFile;
                        FetchSettled 0 (OK (respond 200 bodyWithoutCharts));
                        JsonSettled 0] = Some w' ->
       exists message, phase (state w') = Failed message).
Proof.
  intros H. edestruct H as [message Hm]; [reflexivity|].
  vm_compute in Hm. discriminate.
Qed.

(** Where the missing field does surface: rendering the page with such a
    result throws. *)
Lemma missing_chart_suggestions_render_throws :
  exists err,
    Home {| uploadResult := bodyWithoutCharts; loading := false; error := None |} = Throw err.
Proof. eexists. reflexivity. Qed.

(** C5, as the code has it.  When the call of a non-2xx response ends,
    the error is set and [loading] goes down, so the controller is in the
    failed state, and the stored result is left as it is.  When the body
    parses and its [detail] is a non-empty string the message is that string;
    when the body parses to a value other than [null] whose [detail] is
    missing or falsy (the empty string among them) the message is ['Upload
    failed'].  After a submission that no other overlaps the result is null
    and the page shows no suggestion card. *)
Theorem non2xx_failure_message (w : World) (id : nat) (response : Response) :
  inflight w !! id = Some (AwaitJson response) ->
  ok response = false ->
  exists message,
    (exists w',
       step w (JsonSettled id) = Some w' /\
       error (state w') = Some message /\
       loading (state w') = false /\
       uploadResult (state w') = uploadResult (state w) /\
       phase (state w') = Failed message) /\
    (forall errorData d,
       json response = OK errorData -> get errorData "detail" = OK (JStr d) -> d <> "" ->
       message = d) /\
    (forall errorData detail,
       json response = OK errorData -> get errorData "detail" = OK detail ->
       truthy detail = false ->
       message = "Upload failed") /\
    (forall w0 file, exists w1 pg,
       run w0 [Submit file;
               FetchSettled (length (issued w0)) (OK response);
               JsonSettled (length (issued w0))] = Some w1 /\
       state w1 = {| uploadResult := JNull; loading := false; error := Some message |} /\
       Home (state w1) = OK pg /\ cardsOf pg = []).
Proof.
  intros Hl Hok.
  destruct (afterJson_rejects response Hok) as [err Herr].
  eexists. split; [|split; [|split]].
  - destruct (ending_json w id response Hl) as (w' & Hstep & Hst & _).
    exists w'. split; [exact Hstep|].
    rewrite Herr, leave_Throw in Hst. rewrite Hst. repeat split.
  - intros errorData d Hj Hd Hne.
    rewrite (afterJson_detail response errorData d Hok Hj Hd Hne) in Herr.
    injection Herr as <-. reflexivity.
  - intros errorData detail Hj Hd Hf.
    rewrite (afterJson_generic response errorData detail Hok Hj Hd Hf) in Herr.
    injection Herr as <-. reflexivity.
  - intros w0 file. destruct (round_trip w0 file response) as (w1 & Hrun & Hst & _).
    rewrite Herr in Hst. simpl in Hst.
    destruct (no_cards_without_result false
                (match err with ErrorObj m => m | NonError _ => "An error occurred" end))
      as (pg & Hpg & Hcards).
    exists w1, pg. split; [exact Hrun|]. split; [exact Hst|].
    rewrite Hst. split; assumption.
Qed.

Lemma non2xx_failure_message_witness :
  exists w1 pg,
    run (init None)
      [Submit sampleFile;
       FetchSettled 0 (OK (respond 400 (JObj [("detail", JStr "unsupported file type")])));
       JsonSettled 0] = Some w1 /\
    phase (state w1) = Failed "unsupported file type" /\
    Home (state w1) = OK pg /\ cardsOf pg = [].
Proof.
  destruct (non2xx_failure_message
              (suspend 0 (AwaitJson (respond 400 (JObj [("detail", JStr "unsupported file type")])))
                 (entered (init None) sampleFile))
              0 (respond 400 (JObj [("detail", JStr "unsupported file type")])))
    as (message & _ & Hd & _ & Hrun).
  - reflexivity.
  - reflexivity.
  - destruct (Hrun (init None) sampleFile) as (w1 & pg & Hr & Hst & Hpg & Hcards).
    exists w1, pg. split; [exact Hr|]. split; [|split; assumption].
    rewrite Hst. rewrite (Hd _ "unsupported file type" eq_refl eq_refl); [reflexivity|].
    discriminate.
Defined.

(** C5, as the claim has it, fails: a 400 response whose body carries the
    [detail] string [""] does not give the message [""]. *)
Lemma empty_detail_not_shown :
  ~ (forall w',
       run (init None) [Submit sampleFile;
                        FetchSettled 0 (OK (respond 400 (JObj [("detail", JStr "")])));
                        JsonSettled 0] = Some w' ->
       phase (state w') = Failed "").
Proof.
  intros H. pose proof (H _ eq_refl) as Hm.
  vm_compute in Hm. discriminate.
Qed.

(** C10.  For every call, in any state, wherever it is suspended and
    whatever else is in flight: when the promise of [fetch], or that of [response.json()]
    (for any status), is rejected with a value that is not an [Error], the
    call ends by setting the error to ['An error occurred'] and [loading] to
    false, which is the failed state with that message; the stored result is
    not touched.  And whenever a step ends a call, whatever the outcome,
    [loading] is false after it. *)
Theorem non_error_throw_generic (wF wJ : World) (idF idJ : nat) (response : Response)
    (t v : JValue) :
  inflight wF !! idF = Some AwaitFetch ->
  inflight wJ !! idJ = Some (AwaitJson response) ->
  json response = Throw (NonError v) ->
  (exists w',
     step wF (FetchSettled idF (Throw (NonError t))) = Some w' /\
     error (state w') = Some "An error occurred" /\
     loading (state w') = false /\
     uploadResult (state w') = uploadResult (state wF) /\
     phase (state w') = Failed "An error occurred" /\
     inflight w' !! idF = None) /\
  (exists w',
     step wJ (JsonSettled idJ) = Some w' /\
     error (state w') = Some "An error occurred" /\
     loading (state w') = false /\
     uploadResult (state w') = uploadResult (state wJ) /\
     phase (state w') = Failed "An error occurred" /\
     inflight w' !! idJ = None) /\
  (forall w0 file, exists w1,
     run w0 [Submit file; FetchSettled (length (issued w0)) (Throw (NonError t))] = Some w1 /\
     state w1 = {| uploadResult := JNull; loading := false;
                   error := Some "An error occurred" |}) /\
  (forall w0 file, exists w1,
     run w0 [Submit file;
             FetchSettled (length (issued w0)) (OK response);
             JsonSettled (length (issued w0))] = Some w1 /\
     state w1 = {| uploadResult := JNull; loading := false;
                   error := Some "An error occurred" |}) /\
  (forall w0 ev w1 id,
     step w0 ev = Some w1 ->
     is_Some (inflight w0 !! id) -> inflight w1 !! id = None ->
     loading (state w1) = false).
Proof.
  intros HF HJ Hv. split; [|split; [|split; [|split]]].
  - destruct (ending_fetch wF idF (NonError t) HF) as (w' & Hstep & Hst & Hin).
    exists w'. split; [exact Hstep|]. rewrite Hst, leave_Throw, Hin.
    repeat split. apply lookup_delete_eq.
  - destruct (ending_json wJ idJ response HJ) as (w' & Hstep & Hst & Hin).
    exists w'. split; [exact Hstep|].
    rewrite (afterJson_unparsed response _ Hv), leave_Throw in Hst. rewrite Hst, Hin.
    repeat split. apply lookup_delete_eq.
  - intros w0 file.
    destruct (round_trip_rejected w0 file (NonError t)) as (w1 & Hrun & Hst).
    exists w1. split; assumption.
  - intros w0 file.
    destruct (round_trip w0 file response) as (w1 & Hrun & Hst & _).
    exists w1. split; [exact Hrun|].
    rewrite (afterJson_unparsed response _ Hv) in Hst. exact Hst.
  - intros w0 ev w1 id Hstep [a Ha] Hgone.
    destruct ev as [f|id' outcome|id']; simpl in Hstep.
    + injection Hstep as <-.
      change (<[length (issued w0) := AwaitFetch]> (inflight w0) !! id = None) in Hgone.
      apply lookup_insert_None in Hgone as [Hn _]. congruence.
    + destruct (inflight w0 !! id') as [[|r]|] eqn:Hl; try discriminate.
      destruct outcome as [resp|err]; injection Hstep as <-.
      * simpl in Hgone. apply lookup_insert_None in Hgone as [Hn _]. congruence.
      * reflexivity.
    + destruct (inflight w0 !! id') as [[|r]|] eqn:Hl; try discriminate.
      injection Hstep as <-. rewrite state_performAll.
      destruct (afterJson r); reflexivity.
Qed.

(** Three calls: the third has ended and its result is on display, the
    first still awaits its response and the second the body of a response
    that will not parse. *)
Lemma non_error_throw_generic_witness :
  exists w w1 w2,
    run (init None)
      [Submit sampleFile; Submit otherFile; Submit sampleFile;
       FetchSettled 1 (OK {| status := 200; json := Throw (NonError (JStr "boom")) |});
       FetchSettled 2 (OK (respond 200 (bodyWith "T")));
       JsonSettled 2] = Some w /\
    step w (FetchSettled 0 (Throw (NonError JNull))) = Some w1 /\
    state w1 = {| uploadResult := bodyWith "T"; loading := false;
                  error := Some "An error occurred" |} /\
    step w (JsonSettled 1) = Some w2 /\
    state w2 = {| uploadResult := bodyWith "T"; loading := false;
                  error := Some "An error occurred" |}.
Proof.
  eassert (Hrun : run (init None)
                    [Submit sampleFile; Submit otherFile; Submit sampleFile;
                     FetchSettled 1
                       (OK {| status := 200; json := Throw (NonError (JStr "boom")) |});
                     FetchSettled 2 (OK (respond 200 (bodyWith "T")));
                     JsonSettled 2] = Some _) by reflexivity.
  match type of Hrun with
  | _ = Some ?w =>
      destruct (non_error_throw_generic w w 0 1
                  {| status := 200; json := Throw (NonError (JStr "boom")) |}
                  JNull (JStr "boom") eq_refl eq_refl eq_refl)
        as ((w1 & H1 & He1 & Hl1 & Hr1 & _) & (w2 & H2 & He2 & Hl2 & Hr2 & _) & _);
      exists w, w1, w2
  end.
  split; [exact Hrun|]. split; [exact H1|]. split.
  { destruct (state w1) as [r l e]. simpl in *. subst. reflexivity. }
  split; [exact H2|].
  destruct (state w2) as [r l e]. simpl in *. subst. reflexivity.
Defined.

Lemma lookup_entered w file :
  inflight (entered w file) !! length (issued w) = Some AwaitFetch.
Proof. rewrite inflight_entered. apply lookup_insert_eq. Qed.

Lemma lookup_entered_ne w file id :
  id <> length (issued w) -> inflight (entered w file) !! id = inflight w !! id.
Proof. intros H. rewrite inflight_entered. apply lookup_insert_ne. congruence. Qed.

(** Two submissions, the second issued while the first is still awaiting
    its response; the second's response arrives and its call ends, then the
    first's.  The cells are those the two endings write, in that order, over
    the cells as cleared on entry. *)
Lemma two_in_flight (w : World) (fileA fileB : File) (first second : Response) :
  exists w',
    run w [Submit fileA;
           Submit fileB;
           FetchSettled (S (length (issued w))) (OK second);
           JsonSettled (S (length (issued w)));
           FetchSettled (length (issued w)) (OK first);
           JsonSettled (length (issued w))] = Some w' /\
    state w' =
      foldl setState
        (foldl setState {| uploadResult := JNull; loading := true; error := None |}
           (leave (afterJson second)))
        (leave (afterJson first)).
Proof.
  set (a := length (issued w)).
  set (w1 := entered w fileA).
  set (w2 := entered w1 fileB).
  set (w3 := suspend (S a) (AwaitJson second) w2).
  set (w4 := performAll (resume (S a) w3) (leave (afterJson second))).
  set (w5 := suspend a (AwaitJson first) w4).
  set (w6 := performAll (resume a w5) (leave (afterJson first))).
  assert (Hb : length (issued w1) = S a) by apply issued_entered.
  assert (H2 : inflight w2 !! S a = Some AwaitFetch).
  { rewrite <- Hb. apply lookup_entered. }
  assert (H3 : inflight w3 !! S a = Some (AwaitJson second)) by apply lookup_insert_eq.
  assert (H4 : inflight w4 !! a = Some AwaitFetch).
  { unfold w4. rewrite inflight_leave.
    change (delete (S a) (<[S a := AwaitJson second]> (inflight w2)) !! a = Some AwaitFetch).
    rewrite lookup_delete_ne, lookup_insert_ne by lia.
    unfold w2. rewrite lookup_entered_ne by (rewrite Hb; lia). apply lookup_entered. }
  assert (H5 : inflight w5 !! a = Some (AwaitJson first)) by apply lookup_insert_eq.
  assert (Hst : state w6 =
                foldl setState
                  (foldl setState {| uploadResult := JNull; loading := true; error := None |}
                     (leave (afterJson second)))
                  (leave (afterJson first))).
  { unfold w6. rewrite state_performAll.
    change (state (resume a w5)) with (state w4).
    unfold w4. rewrite state_performAll. reflexivity. }
  exists w6. split.
  - rewrite (run_cons w _ w1) by reflexivity.
    rewrite (run_cons w1 _ w2) by reflexivity.
    rewrite (run_cons w2 _ w3) by (apply step_fetch_ok, H2).
    rewrite (run_cons w3 _ w4) by (apply step_json, H3).
    rewrite (run_cons w4 _ w5) by (apply step_fetch_ok, H4).
    rewrite (run_cons w5 _ w6) by (apply step_json, H5).
    reflexivity.
  - exact Hst.
Qed.






(** With one submission at a time, either no call is suspended, or exactly
    one is and both cells are cleared. *)
Lemma one_at_a_time_inv env w :
  reachableOneAtATime env w ->
  (inflight w = ∅ /\ (error (state w) = None \/ uploadResult (state w) = JNull)) \/
  (exists id a, inflight w = {[id := a]} /\
                error (state w) = None /\ uploadResult (state w) = JNull).
Proof.
  induction 1 as [|w file w' _ _ Hempty Hstep|w id outcome w' _ IH Hstep|w id w' _ IH Hstep].
  - left. split; [reflexivity | left; reflexivity].
  - injection Hstep as <-. right. exists (length (issued w)), AwaitFetch.
    split; [|split; reflexivity].
    change (<[length (issued w) := AwaitFetch]> (inflight w) = {[length (issued w) := AwaitFetch]}).
    rewrite Hempty. apply insert_empty.
  - simpl in Hstep. destruct (inflight w !! id) as [[|r]|] eqn:Hl; try discriminate.
    destruct IH as [[He _]|(id0 & a & Hs & Herr & Hres)].
    { rewrite He, lookup_empty in Hl. discriminate. }
    rewrite Hs in Hl. apply lookup_singleton_Some in Hl as [<- Ea].
    destruct outcome as [response|err]; injection Hstep as <-.
    + right. exists id0, (AwaitJson response). simpl.
      split; [rewrite Hs; apply insert_singleton_eq | split; assumption].
    + left. simpl. split; [rewrite Hs; apply delete_singleton_eq | right; exact Hres].
  - simpl in Hstep. destruct (inflight w !! id) as [[|r]|] eqn:Hl; try discriminate.
    destruct IH as [[He _]|(id0 & a & Hs & Herr & Hres)].
    { rewrite He, lookup_empty in Hl. discriminate. }
    rewrite Hs in Hl. apply lookup_singleton_Some in Hl as [<- Ea].
    injection Hstep as <-. left. split.
    + rewrite inflight_leave. simpl. rewrite Hs. apply delete_singleton_eq.
    + rewrite state_performAll. simpl.
      destruct (afterJson r) as [result|err]; simpl; [left; exact Herr | right; exact Hres].
Qed.

(** C9, as the code has it.  While submissions come one at a time (a file
    is handed over only when no earlier call is suspended), at most one of
    [error] and [uploadResult] is non-null.  On entry both cells are cleared
    before the request is issued.  A call ends by applying [leave] to the
    cells: the successful ending stores the result and leaves the error as
    it is; the failing ending stores a message as the error and leaves the
    result as it is. *)
Theorem one_at_a_time_exclusive (env : option string) (w : World) :
  reachableOneAtATime env w ->
  (error (state w) = None \/ uploadResult (state w) = JNull) /\
  (forall file, exists before request,
     enter env file = (before ++ [fetch request])%list /\
     setError None ∈ before /\ setUploadResult JNull ∈ before /\
     forall r, fetch r ∉ before) /\
  (forall w0 id response,
     inflight w0 !! id = Some (AwaitJson response) ->
     exists w1, step w0 (JsonSettled id) = Some w1 /\
                state w1 = foldl setState (state w0) (leave (afterJson response))) /\
  (forall w0 id err,
     inflight w0 !! id = Some AwaitFetch ->
     exists w1, step w0 (FetchSettled id (Throw err)) = Some w1 /\
                state w1 = foldl setState (state w0) (leave (Throw err))) /\
  (forall st result,
     foldl setState st (leave (OK result))
     = {| uploadResult := result; loading := false; error := error st |} /\
     setUploadResult result ∈ leave (OK result) /\
     forall e, setError e ∉ leave (OK result)) /\
  (forall st err, exists message,
     foldl setState st (leave (Throw err))
     = {| uploadResult := uploadResult st; loading := false; error := Some message |} /\
     setError (Some message) ∈ leave (Throw err) /\
     forall v, setUploadResult v ∉ leave (Throw err)).
Proof.
  intros Hw. split; [|split; [|split; [|split; [|split]]]].
  - destruct (one_at_a_time_inv env w Hw) as [[_ H]|(_ & _ & _ & H & _)];
      [exact H | left; exact H].
  - intros file.
    exists [setLoading true; setError None; setUploadResult JNull]. eexists.
    split; [reflexivity|]. rewrite !elem_of_cons.
    split; [tauto|]. split; [tauto|].
    intros r. rewrite !not_elem_of_cons.
    repeat split; try discriminate. apply not_elem_of_nil.
  - intros w0 id response Hl.
    destruct (ending_json w0 id response Hl) as (w1 & Hs & Hst & _). eauto.
  - intros w0 id err Hl.
    destruct (ending_fetch w0 id err Hl) as (w1 & Hs & Hst & _). eauto.
  - intros st result. split; [reflexivity|]. unfold leave.
    split; [apply list_elem_of_here|].
    intros e. rewrite !not_elem_of_cons.
    repeat split; try discriminate. apply not_elem_of_nil.
  - intros st err. eexists. split; [apply leave_Throw|].
    unfold leave, catchFinally.
    split; [apply list_elem_of_here|].
    intros v. rewrite !not_elem_of_cons.
    repeat split; try discriminate. apply not_elem_of_nil.
Qed.

(** After a submission and its successful response: the result is stored
    and the error is null. *)
Lemma one_at_a_time_exclusive_witness :
  exists w,
    run (init None) [Submit sampleFile;
                     FetchSettled 0 (OK (respond 200 (bodyWith "T")));
                     JsonSettled 0] = Some w /\
    uploadResult (state w) = bodyWith "T" /\
    (error (state w) = None \/ uploadResult (state w) = JNull).
Proof.
  eassert (Hrun : run (init None) [Submit sampleFile;
                                   FetchSettled 0 (OK (respond 200 (bodyWith "T")));
                                   JsonSettled 0] = Some _) by reflexivity.
  match type of Hrun with
  | _ = Some ?w =>
      exists w; split; [exact Hrun|]; split; [reflexivity|];
      apply (one_at_a_time_exclusive None w)
  end.
  apply (one_json None
           (suspend 0 (AwaitJson (respond 200 (bodyWith "T"))) (entered (init None) sampleFile))
           0); [|reflexivity].
  apply (one_fetch None (entered (init None) sampleFile) 0
           (OK (respond 200 (bodyWith "T")))); [|reflexivity].
  apply (one_submit None (init None) sampleFile); [apply one_init | reflexivity | reflexivity].
Defined.

(** C9, as the claim has it, fails: with a second submission issued while
    the first is in flight, the second's success and then the first's
    failure leave both cells non-null. *)
Lemma both_cells_set :
  ~ (forall w, reachable None w ->
       error (state w) = None \/ uploadResult (state w) = JNull).
Proof.
  intros H.
  assert (Hr : exists w,
             run (init None) [Submit sampleFile;
                              Submit otherFile;
                              FetchSettled 1 (OK (respond 200 (bodyWith "second")));
                              JsonSettled 1;
                              FetchSettled 0 (Throw (ErrorObj "Failed to fetch"))] = Some w)
    by (eexists; reflexivity).
  destruct Hr as [w Hrun].
  pose proof (H w (reachable_run None _ _ w (reachable_init None) Hrun)) as Hw.
  vm_compute in Hrun. injection Hrun as <-.
  destruct Hw as [Hw|Hw]; vm_compute in Hw; discriminate.
Qed.

End Controller.

(** * Further properties of the upload controller *)

Section ControllerMore.

Lemma step_env w ev w' :
  step w ev = Some w' -> NEXT_PUBLIC_API_URL w' = NEXT_PUBLIC_API_URL w.
Proof.
  destruct ev as [file|id outcome|id]; simpl.
  - intros [= <-]. reflexivity.
  - destruct (inflight w !! id) as [[|r]|]; try discriminate.
    destruct outcome; intros [= <-]; reflexivity.
  - destruct (inflight w !! id) as [[|r]|]; try discriminate.
    intros [= <-]. destruct (afterJson r); reflexivity.
Qed.

Lemma issued_leave w completion : issued (performAll w (leave completion)) = issued w.
Proof. destruct completion; reflexivity. Qed.

Lemma step_issued w ev w' :
  step w ev = Some w' ->
  issued w' =
    (issued w ++
     ((fun file => {| url := apiUrl (NEXT_PUBLIC_API_URL w) ++ "/upload";
                      method := "POST"; body := [("file", file)] |}) <$> submitted [ev]))%list.
Proof.
  destruct ev as [file|id outcome|id]; simpl.
  - intros [= <-]. reflexivity.
  - destruct (inflight w !! id) as [[|r]|]; try discriminate.
    destruct outcome; intros [= <-]; simpl; rewrite app_nil_r; reflexivity.
  - destruct (inflight w !! id) as [[|r]|]; try discriminate.
    intros [= <-]. rewrite issued_leave. simpl. rewrite app_nil_r. reflexivity.
Qed.

(** X1.  One request per call and no other: over any run, the requests
    issued are one for each file handed over, in that order; each is a POST
    to the base URL followed by [/upload], with a single form part named
    [file] that carries the file.  The settling of a promise issues
    nothing: there is no retry. *)
Theorem one_request_per_submission (w w' : World) (evs : list Event) :
  run w evs = Some w' ->
  issued w' =
    (issued w ++
     ((fun file => {| url := apiUrl (NEXT_PUBLIC_API_URL w) ++ "/upload";
                      method := "POST"; body := [("file", file)] |}) <$> submitted evs))%list.
Proof.
  revert w. induction evs as [|ev evs IH]; intros w; simpl.
  - intros [= <-]. rewrite app_nil_r. reflexivity.
  - destruct (step w ev) as [w1|] eqn:Hs; [|discriminate].
    intros Hrun. rewrite (IH w1 Hrun), (step_issued w ev w1 Hs), (step_env w ev w1 Hs).
    simpl. rewrite app_nil_r, fmap_app, app_assoc. reflexivity.
Qed.

Lemma one_request_per_submission_witness :
  exists w',
    run (init (Some "https://api.example"))
      [Submit sampleFile;
       FetchSettled 0 (OK (respond 200 (bodyWith "T")));
       Submit otherFile;
       JsonSettled 0] = Some w' /\
    issued w' =
      [ {| url := "https://api.example/upload"; method := "POST";
           body := [("file", sampleFile)] |};
        {| url := "https://api.example/upload"; method := "POST";
           body := [("file", otherFile)] |} ].
Proof.
  eexists. split; [reflexivity|].
  exact (one_request_per_submission (init (Some "https://api.example")) _
           [Submit sampleFile;
            FetchSettled 0 (OK (respond 200 (bodyWith "T")));
            Submit otherFile;
            JsonSettled 0] eq_refl).
Defined.

(** X2.  In every state the component can reach, whatever the order of
    submissions and responses: while [loading] is true nothing stale is on
    display (the result and the error are both cleared) and some call is
    still suspended, so the flag cannot stay up with nothing left to bring
    it down. *)
Theorem loading_means_cleared (env : option string) (w : World) :
  reachable env w ->
  loading (state w) = true ->
  uploadResult (state w) = JNull /\ error (state w) = None /\ inflight w <> ∅.
Proof.
  induction 1 as [|w ev w' _ IH Hstep]; [discriminate|].
  destruct ev as [file|id outcome|id]; simpl in Hstep.
  - injection Hstep as <-. intros _.
    split; [reflexivity|]. split; [reflexivity|].
    change (<[length (issued w) := AwaitFetch]> (inflight w) <> ∅). apply insert_non_empty.
  - destruct (inflight w !! id) as [[|r]|]; try discriminate.
    destruct outcome as [response|err]; injection Hstep as <-.
    + intros Hl. destruct (IH Hl) as (Hr & He & _).
      split; [exact Hr|]. split; [exact He|]. apply insert_non_empty.
    + discriminate.
  - destruct (inflight w !! id) as [[|r]|]; try discriminate.
    injection Hstep as <-. rewrite state_performAll.
    destruct (afterJson r); discriminate.
Qed.

Lemma loading_means_cleared_witness :
  uploadResult (state (entered (entered (init None) sampleFile) otherFile)) = JNull /\
  error (state (entered (entered (init None) sampleFile) otherFile)) = None /\
  inflight (entered (entered (init None) sampleFile) otherFile) <> ∅.
Proof.
  apply (loading_means_cleared None).
  - apply (reachable_step None (entered (init None) sampleFile) (Submit otherFile)).
    + apply (reachable_step None (init None) (Submit sampleFile)).
      * apply reachable_init.
      * reflexivity.
    + reflexivity.
  - reflexivity.
Defined.

(** X3.  With one submission at a time, at most one call is suspended and
    [loading] is true exactly while it is. *)
Theorem one_at_a_time_loading (env : option string) (w : World) :
  reachableOneAtATime env w ->
  size (inflight w) <= 1 /\
  (loading (state w) = true <-> inflight w <> ∅).
Proof.
  intros Hw.
  assert (H : (inflight w = ∅ /\ loading (state w) = false) \/
              (exists id a, inflight w = {[id := a]} /\ loading (state w) = true)).
  { induction Hw as [|w file w' _ _ Hempty Hstep|w id outcome w' _ IH Hstep|w id w' _ IH Hstep].
    - left. split; reflexivity.
    - injection Hstep as <-. right. exists (length (issued w)), AwaitFetch.
      split; [|reflexivity].
      change (<[length (issued w) := AwaitFetch]> (inflight w)
              = {[length (issued w) := AwaitFetch]}).
      rewrite Hempty. apply insert_empty.
    - simpl in Hstep. destruct (inflight w !! id) as [[|r]|] eqn:Hl; try discriminate.
      destruct IH as [[He _]|(id0 & a & Hs & Hload)].
      { rewrite He, lookup_empty in Hl. discriminate. }
      rewrite Hs in Hl. apply lookup_singleton_Some in Hl as [<- Ea].
      destruct outcome as [response|err]; injection Hstep as <-.
      + right. exists id0, (AwaitJson response). simpl.
        split; [rewrite Hs; apply insert_singleton_eq | exact Hload].
      + left. simpl. split; [rewrite Hs; apply delete_singleton_eq | reflexivity].
    - simpl in Hstep. destruct (inflight w !! id) as [[|r]|] eqn:Hl; try discriminate.
      destruct IH as [[He _]|(id0 & a & Hs & Hload)].
      { rewrite He, lookup_empty in Hl. discriminate. }
      rewrite Hs in Hl. apply lookup_singleton_Some in Hl as [<- Ea].
      injection Hstep as <-. left. split.
      + rewrite inflight_leave. simpl. rewrite Hs. apply delete_singleton_eq.
      + rewrite state_performAll. destruct (afterJson r); reflexivity. }
  destruct H as [[He Hl]|(id & a & Hs & Hl)].
  - rewrite He, Hl, map_size_empty. split; [lia|]. split; [discriminate | congruence].
  - rewrite Hs, Hl, map_size_singleton. split; [lia|]. split; [|reflexivity].
    intros _. apply map_non_empty_singleton.
Qed.

Lemma one_at_a_time_loading_witness :
  size (inflight (entered (init None) sampleFile)) <= 1 /\
  (loading (state (entered (init None) sampleFile)) = true <->
   inflight (entered (init None) sampleFile) <> ∅).
Proof.
  apply (one_at_a_time_loading None).
  apply (one_submit None (init None) sampleFile).
  - apply one_init.
  - reflexivity.
  - reflexivity.
Defined.

(** X4.  With two calls in flight, the one that ends first brings
    [loading] down although the other is still awaiting its response: here
    the second call's request fails while the first call waits. *)
Theorem first_ending_clears_loading (w : World) (fileA fileB : File) (err : Thrown) :
  exists w',
    run w [Submit fileA; Submit fileB;
           FetchSettled (S (length (issued w))) (Throw err)] = Some w' /\
    loading (state w') = false /\
    inflight w' !! length (issued w) = Some AwaitFetch.
Proof.
  set (a := length (issued w)).
  set (w1 := entered w fileA).
  set (w2 := entered w1 fileB).
  assert (Hb : length (issued w1) = S a) by apply issued_entered.
  assert (H2 : inflight w2 !! S a = Some AwaitFetch).
  { rewrite <- Hb. apply lookup_entered. }
  eexists. split; [|split].
  - rewrite (run_cons w _ w1) by reflexivity.
    rewrite (run_cons w1 _ w2) by reflexivity.
    rewrite (run_cons w2 _ _ _ (step_fetch_throw w2 (S a) err H2)).
    reflexivity.
  - reflexivity.
  - change (delete (S a) (inflight w2) !! a = Some AwaitFetch).
    rewrite lookup_delete_ne by lia.
    unfold w2. rewrite lookup_entered_ne by (rewrite Hb; lia). apply lookup_entered.
Qed.

(** X5.  What one submission and its response leave behind, from any
    state: [loading] is false, and a result is stored exactly when the
    status is 2xx and the body parsed, the error then being null; in every
    other case the result is null and an error message is set. *)
Theorem round_trip_outcome (w : World) (file : File) (response : Response) :
  exists w',
    run w [Submit file;
           FetchSettled (length (issued w)) (OK response);
           JsonSettled (length (issued w))] = Some w' /\
    loading (state w') = false /\
    (error (state w') = None <->
     ok response = true /\ exists parsed, json response = OK parsed) /\
    (forall parsed, ok response = true -> json response = OK parsed ->
       uploadResult (state w') = parsed) /\
    (error (state w') <> None -> uploadResult (state w') = JNull).
Proof.
  destruct (round_trip w file response) as (w' & Hrun & Hst & _).
  exists w'. split; [exact Hrun|]. rewrite Hst. clear Hst Hrun.
  destruct (ok response) eqn:Hok.
  - unfold afterJson. rewrite Hok. simpl.
    destruct (json response) as [parsed|err]; simpl.
    + split; [reflexivity|]. split; [split; [intros _; eauto | reflexivity]|].
      split; [intros p _ [= <-]; reflexivity|].
      intros H. exfalso. apply H. reflexivity.
    + split; [reflexivity|].
      split; [split; [discriminate | intros (_ & p & Hp); discriminate]|].
      split; [intros p _ Hp; discriminate | reflexivity].
  - destruct (afterJson_rejects response Hok) as [err ->]. simpl.
    split; [reflexivity|].
    split; [split; [discriminate | intros [H _]; discriminate]|].
    split; [intros p H; discriminate | reflexivity].
Qed.

End ControllerMore.

(** * Further properties of the renderer and the page *)

Section RendererMore.

Import ChartDisplay.

Local Arguments colorAt : simpl never.

Lemma bind_OK {A B} (r : Res A) (k : A -> Res B) (b : B) :
  bind r k = OK b -> exists a, r = OK a /\ k a = OK b.
Proof. destruct r as [a|t]; simpl; [eauto | discriminate]. Qed.

(** When [renderChart] returns, on any value. *)
Lemma renderChart_returns (v : JValue) (i : nat) :
  (exists chart, renderChart v i = OK chart) <->
  exists t d,
    get v "type" = OK (JStr t) /\ get v "data" = OK d /\
    (toLowerCase t = "pie" -> exists entries, d = JArr entries).
Proof.
  unfold renderChart. split.
  - intros [chart H].
    apply bind_OK in H as (d & Hd & H).
    apply bind_OK in H as (ty & Hty & H).
    apply bind_OK in H as (t & Ht & H).
    apply bind_OK in H as (x & Hx & H).
    apply bind_OK in H as (y & Hy & H).
    destruct ty; try discriminate. injection Ht as ->.
    exists t, d. split; [exact Hty|]. split; [exact Hd|].
    intros Hp. rewrite Hp in H. simpl in H.
    apply bind_OK in H as (entries & He & _).
    destruct d; try discriminate. eauto.
  - intros (t & d & Hty & Hd & Hp).
    rewrite Hd, Hty. simpl.
    assert (Hx : exists x, get v "x_axis" = OK x) by (destruct v; try discriminate; simpl; eauto).
    assert (Hy : exists y, get v "y_axis" = OK y) by (destruct v; try discriminate; simpl; eauto).
    destruct Hx as [x ->]. destruct Hy as [y ->]. simpl.
    destruct (String.eqb (toLowerCase t) "bar"); [eauto|].
    destruct (String.eqb (toLowerCase t) "line"); [eauto|].
    destruct (String.eqb_spec (toLowerCase t) "pie") as [E|_].
    { destruct (Hp E) as [entries ->]. simpl. eauto. }
    destruct (String.eqb (toLowerCase t) "scatter"); [eauto|].
    destruct (String.eqb (toLowerCase t) "area"); eauto.
Qed.

(** X6.  [ChartDisplay] returns a card, on any value handed to it as the
    suggestion, exactly when the [type] is a string, the [data] is neither
    [null] nor [undefined] and, for a pie, the [data] is an array.  In every
    other case it throws; in particular a bar, line, scatter or area chart
    is handed whatever the [data] is. *)
Theorem ChartDisplay_returns (v : JValue) (i : nat) :
  (exists card, ChartDisplay v i = OK card) <->
  exists t d,
    get v "type" = OK (JStr t) /\ get v "data" = OK d /\ nullish d = false /\
    (toLowerCase t = "pie" -> exists entries, d = JArr entries).
Proof.
  split.
  - intros [card H]. unfold ChartDisplay in H.
    apply bind_OK in H as (title & _ & H).
    apply bind_OK in H as (ty & Hty & H).
    apply bind_OK in H as (t & Ht & H).
    apply bind_OK in H as (x & _ & H).
    apply bind_OK in H as (y & _ & H).
    apply bind_OK in H as (e & _ & H).
    apply bind_OK in H as (chart & Hc & H).
    apply bind_OK in H as (d & Hd & H).
    apply bind_OK in H as (n & Hn & _).
    destruct (proj1 (renderChart_returns v i) (ex_intro _ chart Hc))
      as (t' & d' & Hty' & Hd' & Hp).
    exists t', d'. split; [exact Hty'|]. split; [exact Hd'|].
    split; [|exact Hp].
    rewrite Hd in Hd'. injection Hd' as <-. destruct d; try discriminate; reflexivity.
  - intros (t & d & Hty & Hd & Hn & Hp).
    destruct (proj2 (renderChart_returns v i)) as [chart Hc]; [eauto|].
    unfold ChartDisplay. rewrite Hty, Hc, Hd.
    destruct v; try discriminate; destruct d; try discriminate; simpl; eauto.
Qed.

Lemma descendants_Elem t p cs :
  descendants (Elem t p cs) = Elem t p cs :: flat_map descendants cs.
Proof. reflexivity. Qed.

Lemma filter_descendants (P : Node -> bool) t p cs :
  List.filter P (descendants (Elem t p cs)) =
  (List.filter P [Elem t p cs] ++ flat_map (fun c => List.filter P (descendants c)) cs)%list.
Proof.
  rewrite descendants_Elem. change (Elem t p cs :: ?l) with ([Elem t p cs] ++ l)%list.
  rewrite List.filter_app. f_equal.
  induction cs as [|c cs IH]; simpl; [reflexivity|].
  rewrite List.filter_app, IH. reflexivity.
Qed.

(** The cards below an element: the element itself if it is one, then those
    below its children. *)
Lemma cardsOf_Elem t p cs :
  cardsOf (Elem t p cs) =
  (match cardsOf (Elem t p []) with [] => [] | _ :: _ => [Elem t p cs] end
   ++ flat_map cardsOf cs)%list.
Proof.
  unfold cardsOf at 1. rewrite filter_descendants. f_equal. unfold cardsOf.
  match goal with
  | |- List.filter ?P _ = _ =>
      change (List.filter P [Elem t p cs])
        with (if P (Elem t p cs) then [Elem t p cs] else []);
      change (List.filter P (descendants (Elem t p [])))
        with (if P (Elem t p cs) then [Elem t p []] else []);
      destruct (P (Elem t p cs)); reflexivity
  end.
Qed.

Lemma cardsOf_cons t p c cs :
  cardsOf (Elem t p (c :: cs)) =
  (match cardsOf (Elem t p []) with [] => [] | _ :: _ => [Elem t p (c :: cs)] end
   ++ cardsOf c ++ flat_map cardsOf cs)%list.
Proof. rewrite cardsOf_Elem. reflexivity. Qed.

Lemma cardsOf_imap {A} (f : nat -> A -> Node) (l : list A) :
  (forall k x, cardsOf (f k x) = []) -> flat_map cardsOf (imap f l) = [].
Proof.
  revert f. induction l as [|x l IH]; intros f Hf; simpl; [reflexivity|].
  rewrite Hf. apply IH. intros k y. apply Hf.
Qed.

Lemma cardsOf_chart v i chart : renderChart v i = OK chart -> cardsOf chart = [].
Proof.
  unfold renderChart. intros H.
  apply bind_OK in H as (d & _ & H).
  apply bind_OK in H as (ty & _ & H).
  apply bind_OK in H as (t & _ & H).
  apply bind_OK in H as (x & _ & H).
  apply bind_OK in H as (y & _ & H).
  destruct (String.eqb (toLowerCase t) "bar"); [injection H as <-; reflexivity|].
  destruct (String.eqb (toLowerCase t) "line"); [injection H as <-; reflexivity|].
  destruct (String.eqb (toLowerCase t) "pie").
  { apply bind_OK in H as (entries & _ & H). injection H as <-.
    unfold container. rewrite !cardsOf_cons. rewrite (cardsOf_Elem "Pie").
    rewrite cardsOf_imap by reflexivity. reflexivity. }
  destruct (String.eqb (toLowerCase t) "scatter"); [injection H as <-; reflexivity|].
  destruct (String.eqb (toLowerCase t) "area"); injection H as <-; reflexivity.
Qed.

(** A card holds no other card. *)
Lemma cardsOf_card v i card : ChartDisplay v i = OK card -> cardsOf card = [card].
Proof.
  unfold ChartDisplay. intros H.
  apply bind_OK in H as (title & _ & H).
  apply bind_OK in H as (ty & _ & H).
  apply bind_OK in H as (t & _ & H).
  apply bind_OK in H as (x & _ & H).
  apply bind_OK in H as (y & _ & H).
  apply bind_OK in H as (e & _ & H).
  apply bind_OK in H as (chart & Hc & H).
  apply bind_OK in H as (d & _ & H).
  apply bind_OK in H as (n & _ & H).
  injection H as <-.
  rewrite cardsOf_Elem. cbn [flat_map].
  rewrite (cardsOf_Elem "div" _ [chart]). cbn [flat_map].
  rewrite (cardsOf_chart v i chart Hc).
  unfold axisBadge, typeBadge.
  destruct (asciiFirst t), (truthy x), (truthy y); reflexivity.
Qed.

Lemma mapFrom_lookup {A B} (f : nat -> A -> Res B) (l : list A) :
  forall k ys, mapFrom f k l = OK ys ->
  length ys = length l /\
  forall j x, l !! j = Some x -> exists y, ys !! j = Some y /\ f (k + j) x = OK y.
Proof.
  induction l as [|a l IH]; intros k ys; simpl.
  - intros [= <-]. split; [reflexivity|]. intros j x Hj. discriminate.
  - intros H. apply bind_OK in H as (y & Hy & H).
    apply bind_OK in H as (ys' & Hys & H). injection H as <-.
    destruct (IH (S k) ys' Hys) as [Hlen Hall]. split; [simpl; lia|].
    intros [|j] x Hj; simpl in Hj.
    + injection Hj as <-. exists y. rewrite Nat.add_0_r. split; [reflexivity | exact Hy].
    + destruct (Hall j x Hj) as (y' & Hy' & Hf). exists y'.
      replace (k + S j) with (S k + j) by lia. split; [exact Hy' | exact Hf].
Qed.

Lemma mapFrom_total {A B} (f : nat -> A -> Res B) (l : list A) :
  forall k,
  (forall j x, l !! j = Some x -> exists y, f (k + j) x = OK y) ->
  exists ys, mapFrom f k l = OK ys.
Proof.
  induction l as [|a l IH]; intros k Hall; simpl; [eauto|].
  destruct (Hall 0 a eq_refl) as [y Hy]. rewrite Nat.add_0_r in Hy. rewrite Hy. simpl.
  destruct (IH (S k)) as [ys Hys].
  { intros j x Hj. replace (S k + j) with (k + S j) by lia. apply (Hall (S j) x Hj). }
  rewrite Hys. simpl. eauto.
Qed.

Lemma cardsOf_cards (f : nat -> JValue -> Res Node) (l : list JValue) k cards :
  (forall i v card, f i v = OK card -> cardsOf card = [card]) ->
  mapFrom f k l = OK cards -> flat_map cardsOf cards = cards.
Proof.
  intros Hf. revert k cards. induction l as [|a l IH]; intros k cards; simpl.
  - intros [= <-]. reflexivity.
  - intros H. apply bind_OK in H as (y & Hy & H).
    apply bind_OK in H as (ys & Hys & H). injection H as <-.
    simpl. rewrite (Hf k a y Hy), (IH (S k) ys Hys). reflexivity.
Qed.

Lemma cardsOf_errorPanel e : cardsOf (errorPanel e) = [].
Proof. unfold errorPanel. destruct (truthy e); reflexivity. Qed.

Lemma cardsOf_page loading errorSlot resultSlot :
  cardsOf (page loading errorSlot resultSlot) = (cardsOf errorSlot ++ cardsOf resultSlot)%list.
Proof.
  unfold page. repeat (rewrite cardsOf_cons; cbn [flat_map]).
  rewrite !app_nil_r. reflexivity.
Qed.

Lemma toLocaleString_OK v n : toLocaleString v = OK n -> n = LocaleText v.
Proof.
  unfold toLocaleString.
  destruct v; try discriminate; try (intros [= <-]; reflexivity);
    destruct (localeThrows _); try discriminate; intros [= <-]; reflexivity.
Qed.

Lemma arrayReceiver_OK v items : arrayReceiver v = OK items -> v = JArr items.
Proof. destruct v; try discriminate. intros [= <-]. reflexivity. Qed.

(** What a page with a stored result is made of, when it renders. *)
Lemma resultPanel_facts v panel loading e :
  truthy v = true -> resultPanel v = OK panel ->
  exists info rc cc names suggestions cards,
    get v "data_info" = OK info /\
    get info "row_count" = OK rc /\
    get info "column_count" = OK cc /\
    get info "columns" = OK (JArr names) /\
    get v "chart_suggestions" = OK (JArr suggestions) /\
    mapFrom (fun index suggestion => ChartDisplay suggestion index) 0 suggestions = OK cards /\
    cardsOf (page loading (errorPanel e) panel) = cards /\
    tileFigure "Rows" (page loading (errorPanel e) panel) = Some (LocaleText rc) /\
    tileFigure "Columns" (page loading (errorPanel e) panel) = Some (Expr cc) /\
    tileFigure "Charts" (page loading (errorPanel e) panel)
      = Some (Expr (JNum (Z.of_nat (length suggestions)))) /\
    chipsOf (page loading (errorPanel e) panel) = imap columnChip names /\
    resultsShown (page loading (errorPanel e) panel) = true.
Proof.
  intros Ht H. unfold resultPanel in H. rewrite Ht in H.
  apply bind_OK in H as (info & Hinfo & H).
  apply bind_OK in H as (rc & Hrc & H).
  apply bind_OK in H as (rows & Hrows & H).
  apply bind_OK in H as (cc & Hcc & H).
  apply bind_OK in H as (cs & Hcs & H).
  apply bind_OK in H as (charts & Hcharts & H).
  apply bind_OK in H as (columns & Hcolumns & H).
  apply bind_OK in H as (names & Hnames & H).
  apply bind_OK in H as (suggestions & Hsuggestions & H).
  apply bind_OK in H as (cards & Hcards & H).
  injection H as <-.
  apply toLocaleString_OK in Hrows as ->.
  apply arrayReceiver_OK in Hnames as ->.
  apply arrayReceiver_OK in Hsuggestions as ->.
  simpl in Hcharts. injection Hcharts as <-.
  exists info, rc, cc, names, suggestions, cards.
  split; [exact Hinfo|]. split; [exact Hrc|]. split; [exact Hcc|].
  split; [exact Hcolumns|]. split; [exact Hcs|]. split; [exact Hcards|].
  split.
  { rewrite cardsOf_page, cardsOf_errorPanel. unfold tile.
    repeat (rewrite cardsOf_cons; cbn [flat_map]).
    rewrite (cardsOf_Elem _ _ (imap columnChip names)), (cardsOf_Elem _ _ cards).
    rewrite cardsOf_imap by reflexivity.
    rewrite (cardsOf_cards _ suggestions 0 cards
               (fun i v card => cardsOf_card v i card) Hcards).
    simpl. rewrite !app_nil_r. reflexivity. }
  unfold errorPanel. destruct (truthy e); repeat split; reflexivity.
Qed.

(** X7.  Whatever value is stored as the result, when the page renders
    with it the suggestion cards are exactly the outcomes of [ChartDisplay]
    on the elements of [chart_suggestions], in array order, each with its
    position as index; the figure of the Charts tile is their number.  So
    when [ChartDisplay] throws on one suggestion there is no page at all. *)
Theorem cards_follow_suggestions (st : State) (pg : Node) :
  Home st = OK pg ->
  truthy (uploadResult st) = true ->
  exists suggestions,
    get (uploadResult st) "chart_suggestions" = OK (JArr suggestions) /\
    length (cardsOf pg) = length suggestions /\
    (forall k suggestion, suggestions !! k = Some suggestion ->
       exists card, cardsOf pg !! k = Some card /\ ChartDisplay suggestion k = OK card) /\
    tileFigure "Charts" pg = Some (Expr (JNum (Z.of_nat (length (cardsOf pg))))).
Proof.
  intros H Ht. unfold Home in H.
  apply bind_OK in H as (panel & Hp & H). injection H as <-.
  destruct (resultPanel_facts _ panel (loading st) (errorValue (error st)) Ht Hp)
    as (info & rc & cc & names & suggestions & cards
        & _ & _ & _ & _ & Hcs & Hcards & Hc & _ & _ & Hn & _).
  destruct (mapFrom_lookup _ suggestions 0 cards Hcards) as [Hlen Hall].
  exists suggestions. rewrite Hc, Hn, Hlen.
  split; [exact Hcs|]. split; [reflexivity|]. split; [|reflexivity].
  intros k suggestion Hk. destruct (Hall k suggestion Hk) as (card & Hcard & Hd).
  exists card. split; assumption.
Qed.

Lemma cards_follow_suggestions_witness :
  exists pg suggestions,
    Home {| uploadResult := bodyWith "T"; loading := false; error := None |} = OK pg /\
    get (bodyWith "T") "chart_suggestions" = OK (JArr suggestions) /\
    length (cardsOf pg) = length suggestions.
Proof.
  assert (H : exists pg,
             Home {| uploadResult := bodyWith "T"; loading := false; error := None |} = OK pg)
    by (eexists; vm_compute; reflexivity).
  destruct H as [pg Hpg].
  destruct (cards_follow_suggestions _ pg Hpg eq_refl) as (suggestions & Hs & Hl & _).
  exists pg, suggestions. repeat split; assumption.
Defined.

(** [ChartDisplay] returns on every well-typed suggestion. *)
Lemma ChartDisplay_typed s i : exists card, ChartDisplay (toJS s) i = OK card.
Proof.
  destruct (renderChart_cases s i) as [(_ & chart & Hr & _)|(_ & Hr)];
    destruct (ChartDisplay_toJS s i _ Hr) as (card & Hcard & _); eauto.
Qed.

(** X8.  A response that has the shape of [interface UploadResponse]
    always renders, in any state of the other two cells: the results are
    there, the Rows tile shows [row_count] (in the locale's format), the
    Columns tile [column_count] as sent, the Charts tile the number of
    suggestions, there is one chip per column name in order, and one card
    per suggestion in order. *)
Theorem typed_response_renders (r : Wire.UploadResponse) (busy : bool) (e : option string) :
  exists pg,
    Home {| uploadResult := Wire.responseToJS r; loading := busy; error := e |} = OK pg /\
    resultsShown pg = true /\
    tileFigure "Rows" pg = Some (LocaleText (JNum (Wire.row_count (Wire.data_info r)))) /\
    tileFigure "Columns" pg = Some (Expr (JNum (Wire.column_count (Wire.data_info r)))) /\
    tileFigure "Charts" pg
      = Some (Expr (JNum (Z.of_nat (length (Wire.chart_suggestions r))))) /\
    chipsOf pg = imap columnChip (JStr <$> Wire.columns (Wire.data_info r)) /\
    length (cardsOf pg) = length (Wire.chart_suggestions r) /\
    forall k s, Wire.chart_suggestions r !! k = Some s ->
      exists card, cardsOf pg !! k = Some card /\ ChartDisplay (toJS s) k = OK card.
Proof.
  assert (Hc : exists cards,
             mapFrom (fun index suggestion => ChartDisplay suggestion index) 0
               (toJS <$> Wire.chart_suggestions r) = OK cards).
  { apply mapFrom_total. intros j x Hj. rewrite list_lookup_fmap in Hj.
    destruct (Wire.chart_suggestions r !! j) as [s|]; [|discriminate].
    injection Hj as <-. apply ChartDisplay_typed. }
  destruct Hc as [cards Hcards].
  assert (Hp : exists panel, resultPanel (Wire.responseToJS r) = OK panel).
  { unfold resultPanel. cbn [truthy Wire.responseToJS Wire.infoToJS get lookupField String.eqb
                             Ascii.eqb Bool.eqb bind toLocaleString localeThrows arrayReceiver].
    rewrite Hcards. cbn [bind]. eauto. }
  destruct Hp as [panel Hp].
  destruct (resultPanel_facts (Wire.responseToJS r) panel busy (errorValue e) eq_refl Hp)
    as (info & rc & cc & names & suggestions & cards'
        & Hinfo & Hrc & Hcc & Hnames & Hcs & Hcards' & Hcd & Hrows & Hcols & Hn & Hchips & Hshown).
  injection Hinfo as <-. injection Hrc as <-. injection Hcc as <-.
  injection Hnames as <-. injection Hcs as <-.
  rewrite Hcards in Hcards'. injection Hcards' as <-.
  destruct (mapFrom_lookup _ _ 0 cards Hcards) as [Hlen Hall].
  rewrite length_fmap in Hlen, Hn.
  exists (page busy (errorPanel (errorValue e)) panel).
  split; [unfold Home; cbn [uploadResult]; rewrite Hp; reflexivity|].
  split; [exact Hshown|]. split; [exact Hrows|]. split; [exact Hcols|].
  split; [exact Hn|]. split; [exact Hchips|]. rewrite Hcd.
  split; [exact Hlen|].
  intros k s Hk. apply (Hall k (toJS s)). rewrite list_lookup_fmap, Hk. reflexivity.
Qed.

(** X9.  What the page shows of the three cells.  With nothing truthy
    stored as the result the page always renders, and the results are left
    out.  Whenever the page renders: [FileUpload] is handed the [loading]
    flag; the error box is there exactly when the error is a non-empty
    string, and then shows it (an error that is the empty string shows
    nothing); the results are there exactly when the stored result is
    truthy. *)
Theorem page_slots (st : State) :
  (truthy (uploadResult st) = false -> exists pg, Home st = OK pg) /\
  (forall pg, Home st = OK pg ->
     binding "FileUpload" "loading" pg = Some (PV (JBool (loading st))) /\
     shownError pg = match error st with
                     | Some message => if String.eqb message "" then None
                                       else Some (JStr message)
                     | None => None
                     end /\
     resultsShown pg = truthy (uploadResult st)).
Proof.
  split.
  - intros Hf. unfold Home, resultPanel. rewrite Hf. simpl. eauto.
  - intros pg H. unfold Home in H.
    apply bind_OK in H as (panel & Hp & H). injection H as <-.
    split; [reflexivity|]. split.
    + unfold errorPanel. destruct (error st) as [message|]; [|reflexivity].
      simpl. destruct (String.eqb message ""); reflexivity.
    + destruct (truthy (uploadResult st)) eqn:Ht.
      * destruct (resultPanel_facts _ panel (loading st) (errorValue (error st)) Ht Hp)
          as (info & rc & cc & names & suggestions & cards
              & _ & _ & _ & _ & _ & _ & _ & _ & _ & _ & _ & Hs).
        exact Hs.
      * unfold resultPanel in Hp. rewrite Ht in Hp. injection Hp as <-. reflexivity.
Qed.

Lemma keys_of_cells (entries : list JValue) k :
  k < length entries ->
  (keyOf <$> imap cell entries) !! k = Some (Some (PV (JStr ("cell-" ++ pretty k)))).
Proof.
  intros Hk. rewrite list_lookup_fmap, list_lookup_imap.
  destruct (lookup_lt_is_Some_2 entries k Hk) as [entry ->]. reflexivity.
Qed.

(** X10.  The slices of a pie carry the keys [cell-0], [cell-1], ... in
    order, one per record of [data]; no two slices share a key. *)
Theorem pie_slice_keys (s : ChartSuggestion) (i : nat) :
  toLowerCase (type s) = "pie" ->
  exists chart,
    renderChart (toJS s) i = OK chart /\
    (forall k, k < length (data s) ->
       (keyOf <$> slices chart) !! k = Some (Some (PV (JStr ("cell-" ++ pretty k))))) /\
    NoDup (keyOf <$> slices chart).
Proof.
  intros Hp. eexists.
  split; [rewrite renderChart_toJS; unfold renderChart; simpl; rewrite Hp; reflexivity|].
  change (slices _) with (imap cell (data s)).
  split; [intros k Hk; apply keys_of_cells, Hk|].
  apply NoDup_alt. intros a b x Ha Hb.
  assert (Hla : a < length (data s)).
  { apply lookup_lt_Some in Ha. rewrite length_fmap, length_imap in Ha. exact Ha. }
  assert (Hlb : b < length (data s)).
  { apply lookup_lt_Some in Hb. rewrite length_fmap, length_imap in Hb. exact Hb. }
  rewrite (keys_of_cells _ a Hla) in Ha. rewrite (keys_of_cells _ b Hlb) in Hb.
  rewrite <- Hb in Ha. injection Ha as Heq.
  apply (inj pretty). exact Heq.
Qed.

Lemma pie_slice_keys_witness :
  exists chart,
    renderChart (toJS {| type := "PIE"; title := "T"; x_axis := None; y_axis := None;
                         explanation := "E";
                         data := [JObj [("name", JStr "u"); ("value", JNum 1)];
                                  JObj [("name", JStr "v"); ("value", JNum 3)]] |}) 0
      = OK chart /\
    NoDup (keyOf <$> slices chart).
Proof.
  destruct (pie_slice_keys
              {| type := "PIE"; title := "T"; x_axis := None; y_axis := None;
                 explanation := "E";
                 data := [JObj [("name", JStr "u"); ("value", JNum 1)];
                          JObj [("name", JStr "v"); ("value", JNum 3)]] |} 0)
    as (chart & Hr & _ & Hn).
  - reflexivity.
  - exists chart. split; assumption.
Defined.

End RendererMore.

(** * The message of a failure *)

Section Messages.

Lemma afterJson_truthy_detail response errorData detail message :
  ok response = false -> json response = OK errorData ->
  get errorData "detail" = OK detail -> truthy detail = true ->
  ToString detail = OK message ->
  afterJson response = Throw (ErrorObj message).
Proof.
  intros Hok Hj Hd Ht Hm. unfold afterJson. rewrite Hok, Hj. simpl. rewrite Hd. simpl.
  unfold or_else, newError. rewrite Ht, Hm. reflexivity.
Qed.

Lemma ToString_cons x rest :
  ToString (JArr (x :: rest)) =
  (let! a := match x with JUndefined | JNull => OK "" | _ => ToString x end in
   match rest with
   | [] => OK a
   | _ :: _ => let! b := ToString (JArr rest) in OK (a ++ "," ++ b)
   end).
Proof. reflexivity. Qed.

(** The string of an array: the strings of its elements, the empty string
    for [null] and [undefined], with commas between them. *)
Lemma ToString_array_join items :
  forall message, ToString (JArr items) = OK message ->
  exists texts,
    Forall2 (fun item text => if nullish item then text = "" else ToString item = OK text)
      items texts /\
    message = String.concat "," texts.
Proof.
  induction items as [|x rest IH]; intros message H.
  - injection H as <-. exists []. split; [constructor | reflexivity].
  - rewrite ToString_cons in H.
    destruct (match x with JUndefined | JNull => OK "" | _ => ToString x end)
      as [a|] eqn:Ha; [|discriminate].
    assert (Hx : if nullish x then a = "" else ToString x = OK a).
    { destruct x; simpl; try exact Ha; injection Ha as <-; reflexivity. }
    cbn [bind] in H. destruct rest as [|y rest'].
    + injection H as <-. exists [a]. split; [repeat constructor; exact Hx | reflexivity].
    + destruct (ToString (JArr (y :: rest'))) as [b|] eqn:Hb; [|discriminate].
      injection H as <-. destruct (IH b eq_refl) as (texts & Hall & ->).
      exists (a :: texts). split; [constructor; assumption|].
      inversion Hall; subst. reflexivity.
Qed.

(** X11.  For every call that ends on a non-2xx response whose body
    parses: a [detail] that is truthy is turned into a string to make the
    message, whatever it is.  A string is shown as it is, a number up to
    2^53 in magnitude as its digits, a plain object as ["[object Object]"],
    and an array as the strings of its elements ([null] giving the empty
    string) joined by commas. *)
Theorem detail_is_stringified (w : World) (id : nat) (response : Response)
    (errorData detail : JValue) (message : string) :
  inflight w !! id = Some (AwaitJson response) ->
  ok response = false ->
  json response = OK errorData ->
  get errorData "detail" = OK detail ->
  truthy detail = true ->
  ToString detail = OK message ->
  (exists w',
     step w (JsonSettled id) = Some w' /\
     error (state w') = Some message /\
     loading (state w') = false /\
     uploadResult (state w') = uploadResult (state w)) /\
  (forall text, detail = JStr text -> message = text) /\
  (forall n, detail = JNum n -> (Z.abs n <= 2 ^ 53)%Z -> message = pretty n) /\
  (forall fields, detail = JObj fields -> message = "[object Object]") /\
  (forall items, detail = JArr items ->
     exists texts,
       Forall2 (fun item text => if nullish item then text = "" else ToString item = OK text)
         items texts /\
       message = String.concat "," texts).
Proof.
  intros Hl Hok Hj Hd Ht Hm. split; [|split; [|split; [|split]]].
  - destruct (ending_json w id response Hl) as (w' & Hstep & Hst & _).
    rewrite (afterJson_truthy_detail response errorData detail message Hok Hj Hd Ht Hm),
      leave_Throw in Hst.
    exists w'. split; [exact Hstep|]. rewrite Hst. repeat split.
  - intros text ->. injection Hm as <-. reflexivity.
  - intros n -> Hn. injection Hm as <-. unfold numberToString.
    apply Z.leb_le in Hn. rewrite Hn. reflexivity.
  - intros fields ->. simpl in Hm. destruct (hasOwn "toString" fields); [discriminate|].
    injection Hm as <-. reflexivity.
  - intros items ->. apply ToString_array_join, Hm.
Qed.

Lemma detail_is_stringified_witness :
  exists w w',
    run (init None)
      [Submit sampleFile;
       FetchSettled 0
         (OK (respond 422 (JObj [("detail", JArr [JObj [("msg", JStr "field required")];
                                                  JNull; JNum 7])])))] = Some w /\
    step w (JsonSettled 0) = Some w' /\
    error (state w') = Some "[object Object],,7".
Proof.
  eassert (Hrun : run (init None)
                    [Submit sampleFile;
                     FetchSettled 0
                       (OK (respond 422
                              (JObj [("detail", JArr [JObj [("msg", JStr "field required")];
                                                      JNull; JNum 7])])))] = Some _)
    by reflexivity.
  match type of Hrun with
  | _ = Some ?w =>
      destruct (detail_is_stringified w 0
                  (respond 422 (JObj [("detail", JArr [JObj [("msg", JStr "field required")];
                                                       JNull; JNum 7])]))
                  (JObj [("detail", JArr [JObj [("msg", JStr "field required")];
                                          JNull; JNum 7])])
                  (JArr [JObj [("msg", JStr "field required")]; JNull; JNum 7])
                  "[object Object],,7"
                  eq_refl eq_refl eq_refl eq_refl eq_refl eq_refl)
        as ((w' & Hstep & He & _) & _);
      exists w, w'
  end.
  split; [exact Hrun|]. split; assumption.
Defined.

(** Numbers from 10^21 are written in exponent notation, and above 2^53
    with the digits of the nearest double. *)
Example ToString_large_numbers :
  ToString (JNum (10 ^ 21)) = OK "1e+21" /\
  ToString (JNum (2 ^ 64)) = OK "18446744073709552000" /\
  ToString (JNum (- 2 ^ 70)) = OK "-1.1805916207174113e+21" /\
  ToString (JNum 9007199254740993) = OK "9007199254740992".
Proof. vm_compute. repeat split. Qed.

(** X12.  For every call, in any state, wherever it is suspended and
    whatever else is in flight: when the promise of [fetch] is rejected with an [Error]
    (the network is down), or the body of a response of any status does not
    parse and [response.json()] is rejected with an [Error], the call ends
    by storing the message of that error as the error and setting [loading]
    to false; the stored result is left as it is.  After a submission that
    no other overlaps, the result is null. *)
Theorem error_message_is_shown (wF wJ : World) (idF idJ : nat) (response : Response)
    (failure message : string) :
  inflight wF !! idF = Some AwaitFetch ->
  inflight wJ !! idJ = Some (AwaitJson response) ->
  json response = Throw (ErrorObj message) ->
  (exists w',
     step wF (FetchSettled idF (Throw (ErrorObj failure))) = Some w' /\
     error (state w') = Some failure /\
     loading (state w') = false /\
     uploadResult (state w') = uploadResult (state wF)) /\
  (exists w',
     step wJ (JsonSettled idJ) = Some w' /\
     error (state w') = Some message /\
     loading (state w') = false /\
     uploadResult (state w') = uploadResult (state wJ)) /\
  (forall w0 file, exists w1,
     run w0 [Submit file; FetchSettled (length (issued w0)) (Throw (ErrorObj failure))]
       = Some w1 /\
     state w1 = {| uploadResult := JNull; loading := false; error := Some failure |}) /\
  (forall w0 file, exists w1,
     run w0 [Submit file;
             FetchSettled (length (issued w0)) (OK response);
             JsonSettled (length (issued w0))] = Some w1 /\
     state w1 = {| uploadResult := JNull; loading := false; error := Some message |}).
Proof.
  intros HF HJ Hm. split; [|split; [|split]].
  - destruct (ending_fetch wF idF (ErrorObj failure) HF) as (w' & Hstep & Hst & _).
    exists w'. split; [exact Hstep|]. rewrite Hst, leave_Throw. repeat split.
  - destruct (ending_json wJ idJ response HJ) as (w' & Hstep & Hst & _).
    rewrite (afterJson_unparsed response _ Hm), leave_Throw in Hst.
    exists w'. split; [exact Hstep|]. rewrite Hst. repeat split.
  - intros w0 file.
    destruct (round_trip_rejected w0 file (ErrorObj failure)) as (w1 & Hrun & Hst).
    exists w1. split; assumption.
  - intros w0 file.
    destruct (round_trip w0 file response) as (w1 & Hrun & Hst & _).
    rewrite (afterJson_unparsed response _ Hm) in Hst.
    exists w1. split; assumption.
Qed.

(** Three calls: the third has ended and its result is on display; then the
    first call's request fails, and the second's body does not parse. *)
Lemma error_message_is_shown_witness :
  exists w w1 w2,
    run (init None)
      [Submit sampleFile; Submit otherFile; Submit sampleFile;
       FetchSettled 1 (OK {| status := 502;
                             json := Throw (ErrorObj "Unexpected token '<'") |});
       FetchSettled 2 (OK (respond 200 (bodyWith "T")));
       JsonSettled 2] = Some w /\
    step w (FetchSettled 0 (Throw (ErrorObj "Failed to fetch"))) = Some w1 /\
    state w1 = {| uploadResult := bodyWith "T"; loading := false;
                  error := Some "Failed to fetch" |} /\
    step w (JsonSettled 1) = Some w2 /\
    state w2 = {| uploadResult := bodyWith "T"; loading := false;
                  error := Some "Unexpected token '<'" |}.
Proof.
  eassert (Hrun : run (init None)
                    [Submit sampleFile; Submit otherFile; Submit sampleFile;
                     FetchSettled 1 (OK {| status := 502;
                                           json := Throw (ErrorObj "Unexpected token '<'") |});
                     FetchSettled 2 (OK (respond 200 (bodyWith "T")));
                     JsonSettled 2] = Some _) by reflexivity.
  match type of Hrun with
  | _ = Some ?w =>
      destruct (error_message_is_shown w w 0 1
                  {| status := 502; json := Throw (ErrorObj "Unexpected token '<'") |}
                  "Failed to fetch" "Unexpected token '<'" eq_refl eq_refl eq_refl)
        as ((w1 & H1 & He1 & Hl1 & Hr1) & (w2 & H2 & He2 & Hl2 & Hr2) & _);
      exists w, w1, w2
  end.
  split; [exact Hrun|]. split; [exact H1|]. split.
  { destruct (state w1) as [r l e]. simpl in *. subst. reflexivity. }
  split; [exact H2|].
  destruct (state w2) as [r l e]. simpl in *. subst. reflexivity.
Defined.

End Messages.
